(** * grand_trade_auto: configuration access and adapter identity

    A shallow embedding of [grand_trade_auto/general/config.py] (file
    reading, secrets matching, value casting, list parsing, the level
    filter and the search for a configured log handler) and of
    [grand_trade_auto/database/database_meta.py] (the [Database] base
    class), together with the properties of these functions.

    Conventions of the embedding.
    - A Python [str] is a [string]; each [ascii] stands for the code point
      of the same number, so the strings covered are those whose code
      points lie in U+0000..U+00FF.  [isspace], [lower] and the digit tests
      follow the Unicode tables on that range.
    - A call that may raise returns a [res]: [Ok v] or [Raise e].
      [try ... except] is [try_except]; an exception the handler does not
      name passes through it.
    - The conversions to and from [float] are the fields of the class
      [FloatRuntime], so that every property holds of any runtime;
      [Binary64.runtime] is the instance the code is run with.  The grammar
      of [configparser] is a parameter of the file readers in the same
      way. *)

From Stdlib Require Import ZArith NArith Ascii String List Bool Lia.
From Stdlib Require Import DecimalString DecimalZ DecimalPos DecimalN DecimalFacts.
From Stdlib Require Import SpecFloat.
From stdpp Require Import base option list gmap strings.

Open Scope Z_scope.

(* ===================================================================== *)
(** * Part I.  Definitions                                                *)
(* ===================================================================== *)

(** ** Exceptions and results *)

(** The built-in exception classes the modelled code can meet.  The two
    [OSError] subclasses are kept apart from their base class because
    [open] raises the subclass while [ConfigParser.read] catches the base. *)
Inductive exn : Type :=
  | TypeError
  | ValueError
  | OverflowError
  | AssertionError
  | AttributeError
  | KeyError
  | NoSectionError
  | NoOptionError
  | FileNotFoundError
  | IsADirectoryError
  | ParsingError.

Global Instance exn_eq_dec : EqDecision exn.
Proof. solve_decision. Defined.


Inductive res (A : Type) : Type :=
  | Ok (a : A)
  | Raise (e : exn).
Global Arguments Ok {A} a.
Global Arguments Raise {A} e.

Global Instance res_ret : MRet res := fun _ a => Ok a.

Global Instance res_bind : MBind res := fun _ _ k m =>
  match m with
  | Ok a => k a
  | Raise e => Raise e
  end.

Global Instance res_fmap : FMap res := fun _ _ f m =>
  match m with
  | Ok a => Ok (f a)
  | Raise e => Raise e
  end.

(** [try: body  except classes: handler], the handler receiving the
    exception so that a bare [raise] can re-raise it. *)
Definition try_except {A} (body : res A) (catches : exn -> bool)
    (handler : exn -> res A) : res A :=
  match body with
  | Ok a => Ok a
  | Raise e => if catches e then handler e else Raise e
  end.

Definition is_Ok {A} (m : res A) : bool :=
  match m with Ok _ => true | Raise _ => false end.

(** ** Characters *)

Definition ord (c : ascii) : N := N_of_ascii c.

(** [str.isspace] on one character: the code points of U+0000..U+00FF with
    bidirectional class WS, B or S, or category Zs. *)
Definition isspace (c : ascii) : bool :=
  let n := ord c in
  ((9 <=? n) && (n <=? 13) || (28 <=? n) && (n <=? 32)
   || (n =? 133) || (n =? 160))%N.

(** The white space [int()] skips at both ends of its argument: CPython
    rewrites the Unicode spaces above U+007E to a blank and then skips the
    C-locale spaces, so U+001C..U+001F are not skipped. *)
Definition isspace_int (c : ascii) : bool :=
  let n := ord c in
  ((9 <=? n) && (n <=? 13) || (n =? 32) || (n =? 133) || (n =? 160))%N.

(** [str.lower] on one character of U+0000..U+00FF: A-Z, and the Latin-1
    capitals U+00C0..U+00DE without the multiplication sign U+00D7. *)
Definition lower_char (c : ascii) : ascii :=
  let n := ord c in
  if ((65 <=? n) && (n <=? 90)
      || (192 <=? n) && (n <=? 222) && negb (n =? 215))%N
  then ascii_of_N (n + 32) else c.

Definition digit_val (c : ascii) : option Z :=
  let n := ord c in
  if ((48 <=? n) && (n <=? 57))%N then Some (Z.of_N n - 48) else None.

(** ** String methods *)

Fixpoint lstrip_by (p : ascii -> bool) (s : string) : string :=
  match s with
  | EmptyString => EmptyString
  | String c s' => if p c then lstrip_by p s' else s
  end.

Fixpoint rstrip_by (p : ascii -> bool) (s : string) : string :=
  match s with
  | EmptyString => EmptyString
  | String c s' =>
      match rstrip_by p s' with
      | EmptyString => if p c then EmptyString else String c EmptyString
      | r => String c r
      end
  end.

Definition strip_by (p : ascii -> bool) (s : string) : string :=
  rstrip_by p (lstrip_by p s).

(** [s.strip()]. *)
Definition strip (s : string) : string := strip_by isspace s.

Fixpoint mem_char (c : ascii) (chars : string) : bool :=
  match chars with
  | EmptyString => false
  | String d chars' => Ascii.eqb c d || mem_char c chars'
  end.

(** [s.strip(chars)]: every leading and trailing character that occurs in
    [chars] is removed. *)
Definition strip_chars (chars : string) (s : string) : string :=
  strip_by (fun c => mem_char c chars) s.

(** [s.lower()]. *)
Fixpoint lower (s : string) : string :=
  match s with
  | EmptyString => EmptyString
  | String c s' => String (lower_char c) (lower s')
  end.

(** [s.split(sep)] for a non-empty [sep]: the occurrences of [sep] are
    found from left to right and do not overlap.  [skip] counts the
    characters of an occurrence still to be passed over; the head of the
    result is the piece under construction. *)
Fixpoint split_from (sep : string) (skip : nat) (s : string) : list string :=
  match s with
  | EmptyString => [EmptyString]
  | String c s' =>
      match skip with
      | S k => split_from sep k s'
      | O =>
          if String.prefix sep s
          then EmptyString :: split_from sep (Nat.pred (String.length sep)) s'
          else match split_from sep O s' with
               | piece :: rest => String c piece :: rest
               | [] => [String c EmptyString]
               end
      end
  end.

Definition split (s sep : string) : res (list string) :=
  match sep with
  | EmptyString => Raise ValueError
  | _ => Ok (split_from sep O s)
  end.

(** [sep.join(pieces)]. *)
Fixpoint join (sep : string) (pieces : list string) : string :=
  match pieces with
  | [] => EmptyString
  | [p] => p
  | p :: rest => p +:+ sep +:+ join sep rest
  end.

(** [a, b = pieces]: unpacking into two targets. *)
Definition unpack2 (pieces : list string) : res (string * string) :=
  match pieces with
  | [a; b] => Ok (a, b)
  | _ => Raise ValueError
  end.

(** ** [int] and [str] on integers and strings *)

(** The digits after the first one: a single underscore may stand between
    two digits; trailing white space ends the literal. *)
Fixpoint int_digits (acc : Z) (s : string) : option Z :=
  match s with
  | EmptyString => Some acc
  | String c s' =>
      match digit_val c with
      | Some d => int_digits (10 * acc + d) s'
      | None =>
          if Ascii.eqb c "_" then
            match s' with
            | String c2 s'' =>
                match digit_val c2 with
                | Some d => int_digits (10 * acc + d) s''
                | None => None
                end
            | EmptyString => None
            end
          else if forallb isspace_int (list_ascii_of_string s) then Some acc
          else None
      end
  end.

Definition int_unsigned (s : string) : option Z :=
  match s with
  | String c s' =>
      match digit_val c with
      | Some d => int_digits d s'
      | None => None
      end
  | EmptyString => None
  end.

(** [int(s)] for a string, base ten. *)
Definition int_of_str (s : string) : res Z :=
  let body := lstrip_by isspace_int s in
  let parsed :=
    match body with
    | String "-" s' => option_map Z.opp (int_unsigned s')
    | String "+" s' => int_unsigned s'
    | _ => int_unsigned body
    end in
  match parsed with
  | Some z => Ok z
  | None => Raise ValueError
  end.

(** [str(z)] for an integer. *)
Definition str_of_int (z : Z) : string :=
  NilZero.string_of_int (Z.to_int z).

(** ** The floating-point runtime *)

(** The four conversions of binary floating point the code can reach.
    [float_of_str s] is [float(s)], [None] standing for its [ValueError];
    [float_of_int z] is [float(z)], [None] standing for its
    [OverflowError]; [int_of_float] is [int(f)], which raises [ValueError]
    on a NaN and [OverflowError] on an infinity; [str_of_float] is
    [str(f)]. *)
Class FloatRuntime : Type := {
  pyfloat : Type;
  float_of_str : string -> option pyfloat;
  float_of_int : Z -> option pyfloat;
  int_of_float : pyfloat -> res Z;
  str_of_float : pyfloat -> string;
}.

(** ** config.py: [CastType] *)

Inductive CastType : Type :=
  | INT
  | FLOAT
  | STRING.

Global Instance CastType_eq_dec : EqDecision CastType.
Proof. solve_decision. Defined.

Section Values.
Context {FR : FloatRuntime}.

(** The Python values that reach the modelled functions: [None], [bool],
    [int], [float], [str] and the members of [CastType]. *)
Inductive PyVal : Type :=
  | VNone
  | VBool (b : bool)
  | VInt (z : Z)
  | VFloat (f : pyfloat)
  | VStr (s : string)
  | VEnum (t : CastType).

(** [v == CastType.t].  [Enum] compares by identity, and no other modelled
    type compares equal to an enum member. *)
Definition is_member (v : PyVal) (t : CastType) : bool :=
  match v with
  | VEnum t' => bool_decide (t' = t)
  | _ => false
  end.

(** A cast type is recognised when it is a member of [CastType]. *)
Definition recognised (cast_type : PyVal) : bool :=
  match cast_type with
  | VEnum _ => true
  | _ => false
  end.

Definition opt_res {A} (e : exn) (o : option A) : res A :=
  match o with
  | Some a => Ok a
  | None => Raise e
  end.

(** [int(v)]. *)
Definition py_int (v : PyVal) : res Z :=
  match v with
  | VNone => Raise TypeError
  | VBool b => Ok (Z.b2z b)
  | VInt z => Ok z
  | VFloat f => int_of_float f
  | VStr s => int_of_str s
  | VEnum _ => Raise TypeError
  end.

(** [float(v)]. *)
Definition py_float (v : PyVal) : res pyfloat :=
  match v with
  | VNone => Raise TypeError
  | VBool b => opt_res OverflowError (float_of_int (Z.b2z b))
  | VInt z => opt_res OverflowError (float_of_int z)
  | VFloat f => Ok f
  | VStr s => opt_res ValueError (float_of_str s)
  | VEnum _ => Raise TypeError
  end.

Definition CastType_name (t : CastType) : string :=
  match t with
  | INT => "INT"
  | FLOAT => "FLOAT"
  | STRING => "STRING"
  end.

(** [str(v)]. *)
Definition py_str (v : PyVal) : string :=
  match v with
  | VNone => "None"
  | VBool true => "True"
  | VBool false => "False"
  | VInt z => str_of_int z
  | VFloat f => str_of_float f
  | VStr s => s
  | VEnum t => "CastType." +:+ CastType_name t
  end.

(** ** config.py: [cast_var] *)

(** The classes of [except (TypeError, ValueError)]. *)
Definition TypeError_or_ValueError (e : exn) : bool :=
  match e with
  | TypeError | ValueError => true
  | _ => false
  end.

Definition cast_var (var cast_type : PyVal) (fallback_to_original : bool)
    : res PyVal :=
  try_except
    (if is_member cast_type INT then VInt <$> py_int var
     else if is_member cast_type FLOAT then VFloat <$> py_float var
     else if is_member cast_type STRING then Ok (VStr (py_str var))
     else Raise TypeError)
    TypeError_or_ValueError
    (fun e => if fallback_to_original then Ok var else Raise e).

(** ** config.py: [parse_list_from_conf_string] *)

(** The argument of the second [strip]: the apostrophe and the double
    quotation mark (code points 39 and 34). *)
Definition quote_chars : string :=
  String "039"%char (String "034"%char EmptyString).

(** One turn of the [for] loop: the [try] body appends to [list_out], the
    handler leaves it as it was. *)
Definition parse_item (val_type : PyVal) (strip_quotes : bool)
    (list_out : list PyVal) (val : string) : res (list PyVal) :=
  try_except
    (let val := if strip_quotes then strip_chars quote_chars (strip val)
                else val in
     cast_val ← cast_var (VStr (strip val)) val_type false;
     Ok (list_out ++ [cast_val]))
    TypeError_or_ValueError
    (fun _ => Ok list_out).

Fixpoint parse_loop (val_type : PyVal) (strip_quotes : bool)
    (val_raw_list : list string) (list_out : list PyVal)
    : res (list PyVal) :=
  match val_raw_list with
  | [] => Ok list_out
  | val :: rest =>
      list_out' ← parse_item val_type strip_quotes list_out val;
      parse_loop val_type strip_quotes rest list_out'
  end.

(** [conf_str] is a string or [None]; [not conf_str] holds of [None] and of
    the empty string. *)
Definition parse_list_from_conf_string (conf_str : option string)
    (val_type : PyVal) (delim : string) (strip_quotes : bool)
    : res (list PyVal) :=
  match conf_str with
  | None | Some EmptyString => Ok []
  | Some s =>
      val_raw_list ← split s delim;
      parse_loop val_type strip_quotes val_raw_list []
  end.

End Values.

(** ** A binary64 runtime *)

Module Binary64.

Definition prec : Z := 53.
Definition emax : Z := 1024.

(** The number of decimal digits of a positive integer. *)
Definition decimal_digits (m : Z) : Z :=
  Z.of_nat (String.length (str_of_int m)).

(** The binary64 value nearest to [m * 10 ^ e], ties to even, for [m] not
    negative.  The two shortcuts leave the result as it is and keep the
    powers of ten small: a value of at least [10 ^ 311] overflows and a
    value below [10 ^ -326] rounds to zero. *)
Definition of_decimal (neg : bool) (m e : Z) : spec_float :=
  match m with
  | Zpos p =>
      let d := decimal_digits m in
      if 311 <? d + e then S754_infinity neg
      else if d + e <? -325 then S754_zero neg
      else if 0 <=? e then binary_round prec emax neg (Z.to_pos (m * 10 ^ e)) 0
      else
        let '(q, e', l) := SFdiv_core_binary prec emax m 0 (10 ^ (- e)) 0 in
        binary_round_aux prec emax neg q e' l
  | _ => S754_zero neg
  end.

(** *** [float(s)] *)

Definition is_digit (c : ascii) : bool :=
  match digit_val c with Some _ => true | None => false end.

(** The Unicode spaces above U+007E become blanks. *)
Definition blank_space (c : ascii) : ascii :=
  if ((ord c =? 133) || (ord c =? 160))%N then " "%char else c.

Fixpoint map_chars (f : ascii -> ascii) (s : string) : string :=
  match s with
  | EmptyString => EmptyString
  | String c s' => String (f c) (map_chars f s')
  end.

(** The white space of the C locale. *)
Definition isspace_c (c : ascii) : bool :=
  ((9 <=? ord c) && (ord c <=? 13) || (ord c =? 32))%N.

(** An underscore is dropped when it stands between two digits and is an
    error elsewhere; [prev] is the character before. *)
Fixpoint drop_underscores (prev : ascii) (s : string) : option string :=
  match s with
  | EmptyString => if Ascii.eqb prev "_" then None else Some EmptyString
  | String c s' =>
      if Ascii.eqb c "_" then
        if is_digit prev then drop_underscores c s' else None
      else if Ascii.eqb prev "_" && negb (is_digit c) then None
      else String c <$> drop_underscores c s'
  end.

(** A run of digits continuing the number [acc]: the number, the length
    of the run and what follows it. *)
Fixpoint take_digits (acc n : Z) (s : string) : Z * Z * string :=
  match s with
  | EmptyString => (acc, n, s)
  | String c s' =>
      match digit_val c with
      | Some d => take_digits (10 * acc + d) (n + 1) s'
      | None => (acc, n, s)
      end
  end.

Definition parse_exponent (s : string) : option Z :=
  match s with
  | EmptyString => Some 0
  | String c s' =>
      if Ascii.eqb c "e" || Ascii.eqb c "E" then
        let '(neg, s'') :=
          match s' with
          | String "-" t => (true, t)
          | String "+" t => (false, t)
          | _ => (false, s')
          end in
        match take_digits 0 0 s'' with
        | (x, n, EmptyString) =>
            if 0 <? n then Some (if neg then - x else x) else None
        | _ => None
        end
      else None
  end.

(** A decimal literal without its sign: digits, an optional point and
    digits, an optional exponent; at least one digit before the exponent. *)
Definition parse_decimal (neg : bool) (s : string) : option spec_float :=
  let '(a, na, r1) := take_digits 0 0 s in
  let '(b, nb, r2) :=
    match r1 with
    | String "." t => take_digits a 0 t
    | _ => (a, 0, r1)
    end in
  if 0 <? na + nb then
    x ← parse_exponent r2;
    Some (of_decimal neg b (x - nb))
  else None.

Definition parse_unsigned (neg : bool) (s : string) : option spec_float :=
  let l := lower s in
  if bool_decide (l = "inf") || bool_decide (l = "infinity")
  then Some (S754_infinity neg)
  else if bool_decide (l = "nan") then Some S754_nan
  else parse_decimal neg s.

Definition float_of_str (s : string) : option spec_float :=
  s ← drop_underscores "000" (map_chars blank_space s);
  match strip_by isspace_c s with
  | String "-" t => parse_unsigned true t
  | String "+" t => parse_unsigned false t
  | t => parse_unsigned false t
  end.

(** *** [float(z)] and [int(f)] *)

Definition float_of_int (z : Z) : option spec_float :=
  match binary_normalize prec emax z 0 false with
  | S754_infinity _ => None
  | f => Some f
  end.

Definition int_of_float (f : spec_float) : res Z :=
  match f with
  | S754_zero _ => Ok 0
  | S754_infinity _ => Raise OverflowError
  | S754_nan => Raise ValueError
  | S754_finite neg m e =>
      let a := if 0 <=? e then Zpos m * 2 ^ e else Zpos m / 2 ^ (- e) in
      Ok (if neg then - a else a)
  end.

(** *** [str(f)] *)

(** [10 ^ p <= m * 2 ^ e]. *)
Definition pow10_le (p : Z) (m : positive) (e : Z) : bool :=
  let num := Zpos m * (if 0 <=? e then 2 ^ e else 1)
             * (if 0 <=? p then 1 else 10 ^ (- p)) in
  let den := (if 0 <=? e then 1 else 2 ^ (- e))
             * (if 0 <=? p then 10 ^ p else 1) in
  den <=? num.

(** The decimal exponent of [m * 2 ^ e]: the greatest [p] with
    [10 ^ p <= m * 2 ^ e], searched downwards from [p]. *)
Fixpoint decimal_exponent (fuel : nat) (p : Z) (m : positive) (e : Z) : Z :=
  match fuel with
  | O => p
  | S fuel' => if pow10_le p m e then p else decimal_exponent fuel' (p - 1) m e
  end.

(** [m * 2 ^ e / 10 ^ k] rounded down, and whether the remainder, doubled,
    compares below, equal to or above the divisor. *)
Definition scaled (m : positive) (e k : Z) : Z * comparison :=
  let num := Zpos m * (if 0 <=? e then 2 ^ e else 1)
             * (if 0 <=? k then 1 else 10 ^ (- k)) in
  let den := (if 0 <=? e then 1 else 2 ^ (- e))
             * (if 0 <=? k then 10 ^ k else 1) in
  (num / den, Z.compare (2 * (num mod den)) den).

Definition same_float (a b : spec_float) : bool :=
  match a, b with
  | S754_finite s m e, S754_finite s' m' e' =>
      Bool.eqb s s' && Pos.eqb m m' && Z.eqb e e'
  | _, _ => false
  end.

(** The digits of [n] significant places that read back as the value, the
    nearer of the two neighbours first; [None] when neither does. *)
Definition digits_at (m : positive) (e p : Z) (n : Z) : option (Z * Z) :=
  let k := p - n + 1 in
  let '(lo, half) := scaled m e k in
  let hi := lo + 1 in
  let reads d := same_float (of_decimal false d k) (S754_finite false m e) in
  let first := match half with
               | Lt => lo
               | Gt => hi
               | Eq => if Z.even lo then lo else hi
               end in
  let second := if first =? lo then hi else lo in
  if reads first then Some (first, k)
  else if reads second then Some (second, k)
  else None.

Fixpoint shortest_digits (fuel : nat) (m : positive) (e p : Z) (n : Z)
    : Z * Z :=
  match fuel with
  | O => (Zpos m, 0)
  | S fuel' =>
      match digits_at m e p n with
      | Some r => r
      | None => shortest_digits fuel' m e p (n + 1)
      end
  end.

Fixpoint zeros (n : nat) : string :=
  match n with
  | O => EmptyString
  | S n' => String "0" (zeros n')
  end.

Fixpoint take_str (n : nat) (s : string) : string :=
  match n, s with
  | S n', String c s' => String c (take_str n' s')
  | _, _ => EmptyString
  end.

Fixpoint drop_str (n : nat) (s : string) : string :=
  match n, s with
  | S n', String _ s' => drop_str n' s'
  | _, _ => s
  end.

Definition rstrip_zeros (s : string) : string :=
  rstrip_by (fun c => Ascii.eqb c "0") s.

(** The layout of [repr]: [ds] are the significant digits and [decpt] the
    place of the point counted from their start. *)
Definition layout (ds : string) (decpt : Z) : string :=
  let n := Z.of_nat (String.length ds) in
  if (decpt <=? -4) || (16 <? decpt) then
    let x := decpt - 1 in
    let mant := match ds with
                | String c EmptyString => ds
                | String c rest => String c (String "." rest)
                | EmptyString => ds
                end in
    let xs := str_of_int (Z.abs x) in
    mant +:+ "e" +:+ (if x <? 0 then "-" else "+")
      +:+ (if Z.abs x <? 10 then "0" else "") +:+ xs
  else if decpt <=? 0 then
    "0." +:+ zeros (Z.to_nat (- decpt)) +:+ ds
  else if n <=? decpt then
    ds +:+ zeros (Z.to_nat (decpt - n)) +:+ ".0"
  else
    take_str (Z.to_nat decpt) ds +:+ "." +:+ drop_str (Z.to_nat decpt) ds.

Definition str_of_float (f : spec_float) : string :=
  match f with
  | S754_nan => "nan"
  | S754_infinity neg => if neg then "-inf" else "inf"
  | S754_zero neg => if neg then "-0.0" else "0.0"
  | S754_finite neg m e =>
      let p := decimal_exponent 700 310 m e in
      let '(d, k) := shortest_digits 17 m e p 1 in
      let ds := rstrip_zeros (str_of_int d) in
      let decpt := k + Z.of_nat (String.length (str_of_int d)) in
      (if neg then "-" else "") +:+ layout ds decpt
  end.

Definition runtime : FloatRuntime :=
  Build_FloatRuntime spec_float float_of_str float_of_int int_of_float
    str_of_float.

End Binary64.

(** ** [configparser.ConfigParser] and the file system *)

(** A parser holds its default section and its named sections in the order
    they were added; iterating over it yields the name of the default
    section and then the names of the sections. *)
Record ConfigParser : Type := {
  default_section : string;
  defaults : list (string * string);
  sections : list (string * list (string * string));
}.

(** [configparser.ConfigParser()]. *)
Definition ConfigParser_new : ConfigParser :=
  {| default_section := "DEFAULT"; defaults := []; sections := [] |}.

(** [iter(parser)]. *)
Definition ConfigParser_iter (cp : ConfigParser) : list string :=
  default_section cp :: map fst (sections cp).





Section ConfigFiles.
(** [ConfigParser._read]: the lines of a source are parsed into the parser,
    or the source is rejected.  The grammar is that of the runtime. *)
Variable ConfigParser_read_lines :
  list string -> ConfigParser -> res ConfigParser.


(** ** config.py: [read_conf_file_fake_header], [read_conf_file] *)



End ConfigFiles.

(** ** config.py: [get_matching_secrets_id] *)

(** The [try] body of one turn of the loop: [Some name] when the turn
    returns, [None] when it falls through to the next name. *)
Definition secrets_section_matches (secrets_section_name submod main_id : string)
    : res (option string) :=
  pieces ← split secrets_section_name "::";
  '(submod_found, id_found) ← unpack2 pieces;
  if bool_decide (lower (strip submod_found) = lower (strip submod))
     && bool_decide (lower (strip id_found) = lower (strip main_id))
  then Ok (Some secrets_section_name)
  else Ok None.

Definition is_ValueError (e : exn) : bool :=
  match e with
  | ValueError => true
  | _ => false
  end.

Fixpoint secrets_loop (names : list string) (submod main_id : string)
    : res (option string) :=
  match names with
  | [] => Ok None
  | secrets_section_name :: rest =>
      found ← try_except
                 (secrets_section_matches secrets_section_name submod main_id)
                 is_ValueError
                 (fun _ => Ok None);
      match found with
      | Some name => Ok (Some name)
      | None => secrets_loop rest submod main_id
      end
  end.

Definition get_matching_secrets_id (secrets_cp : ConfigParser)
    (submod main_id : string) : res (option string) :=
  secrets_loop (ConfigParser_iter secrets_cp) submod main_id.

(** ** config.py: [LevelFilter] *)

(** [s.upper()], as code points: the capital of U+00B5 and of U+00FF lies
    above U+00FF, and the capital of U+00DF is two letters. *)
Definition upper_char (c : ascii) : list N :=
  let n := ord c in
  if ((97 <=? n) && (n <=? 122)
      || (224 <=? n) && (n <=? 254) && negb (n =? 247))%N
  then [(n - 32)%N]
  else if (n =? 223)%N then [83%N; 83%N]
  else if (n =? 181)%N then [924%N]
  else if (n =? 255)%N then [376%N]
  else [n].

Fixpoint upper (s : string) : list N :=
  match s with
  | EmptyString => []
  | String c s' => upper_char c ++ upper s'
  end.

(** The string of a list of code points, when all lie in U+0000..U+00FF. *)
Fixpoint latin1 (codes : list N) : option string :=
  match codes with
  | [] => Some EmptyString
  | n :: codes' =>
      if (n <? 256)%N then String (ascii_of_N n) <$> latin1 codes' else None
  end.

Definition codes_of (s : string) : list N :=
  map ord (list_ascii_of_string s).

(** What [__init__] can store in [_min_exc_levelno] and in
    [_max_inc_levelno]: [None], the [int] of [int()] or of the level table,
    or the [str] that [logging.getLevelName] makes of an unknown name. *)
Inductive levelno : Type :=
  | LvNone
  | LvInt (z : Z)
  | LvStr (codes : list N).

(** [logging.getLevelName(name)] for a string: the table of level names
    [logging._nameToLevel] is searched (the table keyed by numbers holds no
    string), and an unknown name comes back behind the word Level. *)
Definition getLevelName (nameToLevel : gmap string Z) (name : list N)
    : levelno :=
  match latin1 name ≫= (nameToLevel !!.) with
  | Some z => LvInt z
  | None => LvStr (codes_of "Level " ++ name)
  end.

(** [logging._nameToLevel] as the module sets it up. *)
Definition default_nameToLevel : gmap string Z :=
  list_to_map [("CRITICAL", 50); ("FATAL", 50); ("ERROR", 40); ("WARN", 30);
               ("WARNING", 30); ("INFO", 20); ("DEBUG", 10); ("NOTSET", 0)].

Record LevelFilter : Type := {
  _min_exc_levelno : levelno;
  _max_inc_levelno : levelno;
}.

Section LevelFilters.
Context {FR : FloatRuntime}.

(** [level.upper()]: among the modelled values only a string has the
    method. *)
Definition call_upper (level : PyVal) : res (list N) :=
  match level with
  | VStr s => Ok (upper s)
  | _ => Raise AttributeError
  end.

(** One of the two [try] statements of [__init__]: [int(level)], the
    level table on [ValueError], [None] on [TypeError]. *)
Definition level_of_arg (nameToLevel : gmap string Z) (level : PyVal)
    : res levelno :=
  match py_int level with
  | Ok z => Ok (LvInt z)
  | Raise ValueError =>
      name ← call_upper level;
      Ok (getLevelName nameToLevel name)
  | Raise TypeError => Ok LvNone
  | Raise e => Raise e
  end.

(** [LevelFilter.__init__]: the lower bound is settled before the upper
    one, so an exception of the first [try] leaves the second untried.  The
    closing call of the initialiser of [logging.Filter] sets no attribute
    [filter] reads. *)
Definition LevelFilter_init (nameToLevel : gmap string Z)
    (min_exc_level max_inc_level : PyVal) : res LevelFilter :=
  mn ← level_of_arg nameToLevel min_exc_level;
  mx ← level_of_arg nameToLevel max_inc_level;
  Ok {| _min_exc_levelno := mn; _max_inc_levelno := mx |}.

End LevelFilters.

(** [record.levelno <= bound] and [record.levelno > bound] for a bound that
    is not [None]: an [int] and a [str] do not compare. *)
Definition int_le (record_levelno : Z) (bound : levelno) : res bool :=
  match bound with
  | LvInt z => Ok (record_levelno <=? z)
  | _ => Raise TypeError
  end.

Definition int_gt (record_levelno : Z) (bound : levelno) : res bool :=
  match bound with
  | LvInt z => Ok (z <? record_levelno)
  | _ => Raise TypeError
  end.

Definition is_not_None (bound : levelno) : bool :=
  match bound with
  | LvNone => false
  | _ => true
  end.

(** [bound is not None and record.levelno <= bound], and the same with
    [>]: the comparison is not reached when the bound is [None]. *)
Definition is_at_or_below (record_levelno : Z) (bound : levelno) : res bool :=
  if is_not_None bound then int_le record_levelno bound else Ok false.

Definition is_above (record_levelno : Z) (bound : levelno) : res bool :=
  if is_not_None bound then int_gt record_levelno bound else Ok false.

(** [LevelFilter.filter], on the level number of the record. *)
Definition LevelFilter_filter (self : LevelFilter) (record_levelno : Z)
    : res bool :=
  below ← is_at_or_below record_levelno (_min_exc_levelno self);
  if below : bool then Ok false
  else
    above ← is_above record_levelno (_max_inc_levelno self);
    if above : bool then Ok false else Ok true.

(** ** config.py: [find_existing_handler_from_config] *)

(** A handler of the root logger, as far as the function looks at it:
    [type(h).__name__], [h.level], and [h.formatter], which is [None] or a
    formatter with its [_fmt]. *)
Record Handler : Type := {
  class_name : string;
  level : Z;
  formatter : option string;
}.

(** [logging.getLevelName(level)] for a number: the name of the table
    [logging._levelToName], or the number behind the word Level. *)
Definition getLevelName_int (levelToName : gmap Z string) (level : Z)
    : string :=
  match levelToName !! level with
  | Some name => name
  | None => "Level " +:+ str_of_int level
  end.

(** [logging._levelToName] as the module sets it up. *)
Definition default_levelToName : gmap Z string :=
  list_to_map [(50, "CRITICAL"); (40, "ERROR"); (30, "WARNING"); (20, "INFO");
               (10, "DEBUG"); (0, "NOTSET")].

Fixpoint assoc {A} (key : string) (l : list (string * A)) : option A :=
  match l with
  | [] => None
  | (k, v) :: l' => if bool_decide (k = key) then Some v else assoc key l'
  end.

(** [parser.has_section(section)]. *)
Definition has_section (cp : ConfigParser) (section : string) : bool :=
  bool_decide (is_Some (assoc section (sections cp))).

(** [parser[key]]: the proxy of a section is the name of the section. *)
Definition ConfigParser_getitem (cp : ConfigParser) (key : string)
    : res string :=
  if bool_decide (key ≠ default_section cp) && negb (has_section cp key)
  then Raise KeyError else Ok key.

(** [parser.has_option(section, option)], the option being lowered by
    [optionxform]. *)
Definition has_option (cp : ConfigParser) (section option : string) : bool :=
  if bool_decide (section = "") || bool_decide (section = default_section cp)
  then bool_decide (is_Some (assoc (lower option) (defaults cp)))
  else
    match assoc section (sections cp) with
    | None => false
    | Some d =>
        bool_decide (is_Some (assoc (lower option) d))
        || bool_decide (is_Some (assoc (lower option) (defaults cp)))
    end.

(** [parser.get(section, option)] without interpolation, as in a
    [RawConfigParser]: the section is searched before the defaults. *)
Definition ConfigParser_get (cp : ConfigParser) (section option : string)
    : res string :=
  sectiondict ← match assoc section (sections cp) with
                 | Some d => Ok d
                 | None => if bool_decide (section ≠ default_section cp)
                           then Raise NoSectionError else Ok []
                 end;
  match assoc (lower option) (sectiondict : list (string * string)) with
  | Some v => Ok v
  | None => opt_res NoOptionError (assoc (lower option) (defaults cp))
  end.

(** [proxy[key]] for the proxy of [section]. *)
Definition SectionProxy_getitem (cp : ConfigParser) (section key : string)
    : res string :=
  if negb (has_option cp section key) then Raise KeyError
  else ConfigParser_get cp section key.

(** The warning of the [except KeyError] branch. *)
Definition missing_section_warning (handler_name : string) : string :=
  "Handler '" +:+ handler_name +:+ "' provided in"
  +:+ " logging.conf > [handlers] > keys, but missing"
  +:+ " matching handler section.".

(** What one turn of the loop decides. *)
Inductive turn : Type :=
  | Continue
  | Return (h : Handler).

(** The body of the loop after the section was found. *)
Definition handler_turn (levelToName : gmap Z string) (logger_cp : ConfigParser)
    (h_conf : string) (h_existing : Handler) : res turn :=
  cls1 ← SectionProxy_getitem logger_cp h_conf "class";
  not_same_class ←
    (if bool_decide (class_name h_existing ≠ cls1) then
       cls2 ← SectionProxy_getitem logger_cp h_conf "class";
       Ok (bool_decide ("handlers." +:+ class_name h_existing ≠ cls2))
     else Ok false);
  if not_same_class : bool then Ok Continue
  else
    lvl ← SectionProxy_getitem logger_cp h_conf "level";
    if bool_decide (codes_of (getLevelName_int levelToName (level h_existing))
                    ≠ upper (strip lvl))
    then Ok Continue
    else
      fmt_name ← SectionProxy_getitem logger_cp h_conf "formatter";
      fmt_section ← ConfigParser_getitem logger_cp ("formatter_" +:+ fmt_name);
      fmt ← SectionProxy_getitem logger_cp fmt_section "format";
      let h_conf_fmt := strip fmt in
      _fmt ← opt_res AttributeError (formatter h_existing);
      if bool_decide (_fmt ≠ h_conf_fmt) then Ok Continue
      else Ok (Return h_existing).

(** The loop over the handlers of the root logger.  The first component of
    the result are the warnings logged, in order; they stay logged when an
    exception ends the loop. *)
Fixpoint handler_loop (levelToName : gmap Z string) (logger_cp : ConfigParser)
    (handler_name : string) (handlers : list Handler)
    : list string * res (option Handler) :=
  match handlers with
  | [] => ([], Ok None)
  | h_existing :: rest =>
      match ConfigParser_getitem logger_cp ("handler_" +:+ handler_name) with
      | Raise KeyError =>
          let '(warnings, r) :=
            handler_loop levelToName logger_cp handler_name rest in
          (missing_section_warning handler_name :: warnings, r)
      | Raise e => ([], Raise e)
      | Ok h_conf =>
          match handler_turn levelToName logger_cp h_conf h_existing with
          | Raise e => ([], Raise e)
          | Ok (Return h) => ([], Ok (Some h))
          | Ok Continue =>
              handler_loop levelToName logger_cp handler_name rest
          end
      end
  end.

(** [root_handlers] are the handlers of the root logger. *)
Definition find_existing_handler_from_config (levelToName : gmap Z string)
    (root_handlers : list Handler) (logger_cp : ConfigParser)
    (handler_name : string) : list string * res (option Handler) :=
  handler_loop levelToName logger_cp handler_name root_handlers.

(** ** database_meta.py: [Database] *)

(** What a concrete subclass supplies through the abstract class method
    [get_type_names]. *)
Record DatabaseClass : Type := {
  get_type_names : list string;
}.

(** The instance attributes [__init__] sets. *)
Record Database : Type := {
  cls : DatabaseClass;
  _env : string;
  _cp_db_id : string;
  _cp_secrets_id : string;
}.

(** [Database.__init__]: [host], [port] and [database] are parameters the
    body does not use. *)
Definition Database_init (cls : DatabaseClass)
    (env cp_db_id cp_secrets_id host : string) (port : Z) (database : string)
    : Database :=
  {| cls := cls; _env := env; _cp_db_id := cp_db_id;
     _cp_secrets_id := cp_secrets_id |}.

Definition matches_id_criteria (self : Database)
    (db_id env db_type : option string) : res bool :=
  match db_id with
  | None => Raise AssertionError
  | Some db_id =>
      if bool_decide (db_id ≠ _cp_db_id self) then Ok false
      else if match env with
              | Some env => bool_decide (env ≠ _env self)
              | None => false
              end then Ok false
      else if match db_type with
              | Some db_type =>
                  bool_decide (db_type ∉ get_type_names (cls self))
              | None => false
              end then Ok false
      else Ok true
  end.

(** ** Vocabulary of the statements *)

Fixpoint all_chars (p : ascii -> bool) (s : string) : bool :=
  match s with
  | EmptyString => true
  | String c s' => p c && all_chars p s'
  end.

Definition first_char (s : string) : option ascii :=
  match s with
  | EmptyString => None
  | String c _ => Some c
  end.

Fixpoint last_char (s : string) : option ascii :=
  match s with
  | EmptyString => None
  | String c EmptyString => Some c
  | String _ s' => last_char s'
  end.

(** [p] fails on the character, if there is one. *)
Definition not_at (p : ascii -> bool) (o : option ascii) : Prop :=
  match o with
  | Some c => p c = false
  | None => True
  end.

(** Two strings are the same up to case and surrounding white space. *)
Definition same_folded (a b : string) : Prop :=
  lower (strip a) = lower (strip b).

(** A section name designates the secrets of [submod] and [main_id]: it
    splits on the separator into exactly two parts, which are [submod] and
    [main_id] up to case and surrounding white space. *)
Definition names_secret (name submod main_id : string) : Prop :=
  exists a b,
    split name "::" = Ok [a; b]
    /\ same_folded a submod /\ same_folded b main_id.

(** The section name of the example: blank, Broker, blank, two colons,
    blank, MyId, blank. *)
Definition example_secrets : ConfigParser :=
  {| default_section := "DEFAULT"; defaults := [];
     sections := [("database :: mydb", [("password", "x")]);
                  (" Broker :: MyId ", [("api key", "k")]);
                  ("broker::myid", [("api key", "second")])] |}.

(** A character is one of the two quotation marks. *)
Definition is_quote (c : ascii) : bool :=
  Ascii.eqb c "039" || Ascii.eqb c "034".

(** [mid] is what is left of the trimmed [val] once the quotation marks at
    its two ends are gone. *)
Definition unquoted (val mid : string) : Prop :=
  exists pre post,
    strip val = pre +:+ mid +:+ post
    /\ all_chars is_quote pre = true /\ all_chars is_quote post = true
    /\ not_at is_quote (first_char mid) /\ not_at is_quote (last_char mid).

Fixpoint drop_last (s : string) : string :=
  match s with
  | EmptyString => EmptyString
  | String c EmptyString => EmptyString
  | String c s' => String c (drop_last s')
  end.

(** The stripping the specification words describe: one layer of matching
    quotation marks, when the string begins and ends with the same mark. *)
Definition strip_one_quote_layer (s : string) : string :=
  match s with
  | String c rest =>
      if is_quote c && bool_decide (last_char rest = Some c)
      then drop_last rest else s
  | EmptyString => s
  end.

(** A string of one double quotation mark. *)
Definition dquote : string := String "034" EmptyString.

Fixpoint drop_str (n : nat) (s : string) : string :=
  match n, s with
  | S n', String _ s' => drop_str n' s'
  | _, _ => s
  end.

Section ValueVocabulary.
Context {FR : FloatRuntime}.

(** The value a token casts to, when it casts. *)
Definition cast_ok (v val_type : PyVal) : option PyVal :=
  match cast_var v val_type false with
  | Ok w => Some w
  | Raise _ => None
  end.

(** The text of a token that reaches [cast_var]. *)
Definition prepared (strip_quotes : bool) (val : string) : string :=
  strip (if strip_quotes then strip_chars quote_chars (strip val) else val).

End ValueVocabulary.


(** A character other than [c]. *)
Definition other_than (c : ascii) (x : ascii) : bool := negb (Ascii.eqb x c).


(** The value is an [int]. *)
Definition is_VInt {FR : FloatRuntime} (v : PyVal) : Prop :=
  exists z, v = VInt z.

(** The argument of [LevelFilter] for a bound given as a number, or not
    given. *)
Definition level_arg {FR : FloatRuntime} (bound : option Z) : PyVal :=
  match bound with
  | Some z => VInt z
  | None => VNone
  end.

(** [n] lies above the exclusive lower bound and at most at the inclusive
    upper bound, a bound that is not given letting every level pass. *)
Definition in_window (mn mx : option Z) (n : Z) : Prop :=
  match mn with Some a => a < n | None => True end
  /\ match mx with Some b => n <= b | None => True end.

Global Instance in_window_dec mn mx n : Decision (in_window mn mx n).
Proof. unfold in_window. destruct mn, mx; apply _. Defined.

(** The handler agrees with the configured class, level and format: its
    class name is the configured one, bare or behind the module name
    handlers; the name of its level is the configured level, trimmed and
    in capitals; its format is the configured format, trimmed. *)
Definition handler_agrees (levelToName : gmap Z string) (cls lvl fmt : string)
    (h : Handler) : Prop :=
  (class_name h = cls \/ "handlers." +:+ class_name h = cls)
  /\ codes_of (getLevelName_int levelToName (level h)) = upper (strip lvl)
  /\ formatter h = Some (strip fmt).

(** A logging configuration with a handler section, its formatter, and a
    handler section that gives no class. *)
Definition example_logger_cp : ConfigParser :=
  {| default_section := "DEFAULT"; defaults := [];
     sections :=
       [("handlers", [("keys", "stdout")]);
        ("handler_stdout", [("class", "StreamHandler"); ("level", " info ");
                            ("formatter", "plain")]);
        ("handler_bare", [("level", "INFO")]);
        ("formatter_plain", [("format", " %(message)s ")])] |}.

Definition example_handlers : list Handler :=
  [ {| class_name := "FileHandler"; level := 20;
       formatter := Some "%(message)s" |};
    {| class_name := "StreamHandler"; level := 20;
       formatter := Some "%(message)s" |} ].


(* ===================================================================== *)
(** * Part II.  Properties                                                *)
(* ===================================================================== *)

(** ** [cast_var] *)

Section CastFacts.
Context {FR : FloatRuntime}.

Lemma is_member_unrecognised cast_type t :
  recognised cast_type = false -> is_member cast_type t = false.
Proof. by destruct cast_type. Qed.

Lemma is_member_VEnum t t' : is_member (VEnum t) t' = bool_decide (t = t').
Proof. done. Qed.

(** C1.  For a cast type outside [CastType] the [raise TypeError] sits
    inside the [try] whose handler names [TypeError]: without the fall-back
    the call raises [TypeError], but with [fallback_to_original] set the
    handler returns the original value and the error is suppressed. *)
Theorem cast_var_unrecognised (var cast_type : PyVal) :
  recognised cast_type = false ->
  cast_var var cast_type false = Raise TypeError
  /\ cast_var var cast_type true = Ok var.
Proof.
  intros Hk. unfold cast_var.
  rewrite !(is_member_unrecognised _ _ Hk). by split.
Qed.

(** The exceptions [cast_var] lets through when it is given a string and
    the fall-back is off: only [TypeError] and [ValueError]. *)
Lemma cast_var_str_raises s cast_type e :
  cast_var (VStr s) cast_type false = Raise e ->
  TypeError_or_ValueError e = true.
Proof.
  unfold cast_var.
  destruct (is_member cast_type INT).
  { simpl. destruct (int_of_str s) as [z|e'] eqn:Hz; simpl; [done|].
    unfold int_of_str in Hz.
    repeat case_match; simplify_eq; by intros [= <-]. }
  destruct (is_member cast_type FLOAT).
  { simpl. destruct (float_of_str s); simpl; [done|]. by intros [= <-]. }
  destruct (is_member cast_type STRING); simpl; [done|]. by intros [= <-].
Qed.

End CastFacts.

(** ** [read_conf_file] and [read_conf_file_fake_header] *)

Section ConfigFilesFacts.
Variable read_lines : list string -> ConfigParser -> res ConfigParser.


End ConfigFilesFacts.

(** ** [Database] *)

(** C3.  [matches_id_criteria] raises [AssertionError] when [db_id] is
    [None]; otherwise it returns a boolean that is [true] exactly when
    [db_id] is the instance's id, [env] is [None] or the instance's
    environment, and [db_type] is [None] or one of the names of
    [get_type_names]. *)
Theorem matches_id_criteria_spec (self : Database) (env db_type : option string) :
  matches_id_criteria self None env db_type = Raise AssertionError
  /\ forall db_id : string,
       exists b : bool,
         matches_id_criteria self (Some db_id) env db_type = Ok b
         /\ (b = true <->
             db_id = _cp_db_id self
             /\ (env = None \/ env = Some (_env self))
             /\ (db_type = None
                 \/ exists t, db_type = Some t /\ t ∈ get_type_names (cls self))).
Proof.
  split; [done|]. intros db_id. unfold matches_id_criteria.
  destruct (decide (db_id = _cp_db_id self)) as [Hid|Hid].
  2:{ rewrite bool_decide_eq_true_2 by done. exists false. split; [done|].
      split; [done|]. by intros [? _]. }
  rewrite bool_decide_eq_false_2 by (by intros ?).
  destruct env as [e|].
  - destruct (decide (e = _env self)) as [He|He].
    2:{ rewrite bool_decide_eq_true_2 by done. exists false. split; [done|].
        split; [done|]. intros (_ & [?|?] & _); congruence. }
    rewrite bool_decide_eq_false_2 by (by intros ?).
    destruct db_type as [t|].
    + destruct (decide (t ∈ get_type_names (cls self))) as [Ht|Ht].
      * rewrite bool_decide_eq_false_2 by (by intros ?). exists true.
        split; [done|]. split; [|done]. intros _. subst. eauto 10.
      * rewrite bool_decide_eq_true_2 by done. exists false. split; [done|].
        split; [done|]. intros (_ & _ & [?|(t' & ? & ?)]); [done|].
        by simplify_eq.
    + exists true. split; [done|]. split; [|done]. intros _. subst. eauto 10.
  - destruct db_type as [t|].
    + destruct (decide (t ∈ get_type_names (cls self))) as [Ht|Ht].
      * rewrite bool_decide_eq_false_2 by (by intros ?). exists true.
        split; [done|]. split; [|done]. intros _. eauto 10.
      * rewrite bool_decide_eq_true_2 by done. exists false. split; [done|].
        split; [done|]. intros (_ & _ & [?|(t' & ? & ?)]); [done|].
        by simplify_eq.
    + exists true. split; [done|]. split; [|done]. intros _. eauto 10.
Qed.



(** ** String methods *)

Lemma app_nil_str (s : string) : "" +:+ s = s.
Proof. done. Qed.

Lemma app_cons_str c (s t : string) : String c s +:+ t = String c (s +:+ t).
Proof. done. Qed.

(** [String.app] is never unfolded by [simpl]; its two equations are
    rewritten instead. *)
Ltac str_simpl := rewrite ?app_cons_str, ?app_nil_str; simpl.

Lemma app_empty_r (s : string) : s +:+ "" = s.
Proof. induction s; str_simpl; by f_equal. Qed.

Lemma app_assoc_str (a b c : string) : (a +:+ b) +:+ c = a +:+ b +:+ c.
Proof. induction a; str_simpl; by f_equal. Qed.

Lemma all_chars_app p a b :
  all_chars p (a +:+ b) = all_chars p a && all_chars p b.
Proof.
  induction a as [|c a IH]; str_simpl; [done|]. by rewrite IH, andb_assoc.
Qed.

Lemma lstrip_by_split p s :
  exists pre, s = pre +:+ lstrip_by p s /\ all_chars p pre = true
              /\ not_at p (first_char (lstrip_by p s)).
Proof.
  induction s as [|c s (pre & Hs & Hpre & Hfst)]; simpl.
  - by exists "".
  - destruct (p c) eqn:Hc.
    + exists (String c pre). str_simpl. rewrite Hc, Hpre. by rewrite <- Hs.
    + exists "". str_simpl. by rewrite Hc.
Qed.

Lemma rstrip_by_split p s :
  exists post, s = rstrip_by p s +:+ post /\ all_chars p post = true
               /\ not_at p (last_char (rstrip_by p s)).
Proof.
  induction s as [|c s (post & Hs & Hpost & Hlst)]; simpl.
  - by exists "".
  - destruct (rstrip_by p s) as [|d r] eqn:Hr.
    + rewrite app_nil_str in Hs. destruct (p c) eqn:Hc.
      * exists (String c post). subst post. str_simpl. by rewrite Hc, Hpost.
      * exists post. subst post. by str_simpl.
    + exists post. split; [by rewrite Hs at 1|]. split; [done|].
      simpl in *. done.
Qed.

Lemma rstrip_by_first p s :
  not_at p (first_char s) -> first_char (rstrip_by p s) = first_char s.
Proof.
  destruct s as [|c s]; simpl; [done|]. intros Hc.
  destruct (rstrip_by p s); [by rewrite Hc|done].
Qed.

(** [strip_by p] removes a run of [p]-characters at each end and leaves a
    middle that neither begins nor ends with one. *)
Lemma strip_by_split p s :
  exists pre post,
    s = pre +:+ strip_by p s +:+ post
    /\ all_chars p pre = true /\ all_chars p post = true
    /\ not_at p (first_char (strip_by p s))
    /\ not_at p (last_char (strip_by p s)).
Proof.
  unfold strip_by.
  destruct (lstrip_by_split p s) as (pre & Hs & Hpre & Hfst).
  destruct (rstrip_by_split p (lstrip_by p s)) as (post & Hl & Hpost & Hlst).
  exists pre, post. split; [by rewrite <- Hl|]. repeat split; try done.
  by rewrite rstrip_by_first.
Qed.

Lemma lstrip_by_all p pre s :
  all_chars p pre = true -> lstrip_by p (pre +:+ s) = lstrip_by p s.
Proof.
  induction pre as [|c pre IH]; str_simpl; [done|].
  intros [Hc Hpre]%andb_prop. rewrite Hc. auto.
Qed.

Lemma rstrip_by_all p post :
  all_chars p post = true -> rstrip_by p post = "".
Proof.
  induction post as [|c post IH]; simpl; [done|].
  intros [Hc Hpost]%andb_prop. by rewrite IH, Hc.
Qed.

Lemma rstrip_by_app_all p s post :
  all_chars p post = true -> rstrip_by p (s +:+ post) = rstrip_by p s.
Proof.
  intros Hpost. induction s as [|c s IH]; str_simpl.
  - by apply rstrip_by_all.
  - by rewrite IH.
Qed.

Lemma lstrip_by_app_all p s post :
  all_chars p post = true ->
  rstrip_by p (lstrip_by p (s +:+ post)) = rstrip_by p (lstrip_by p s).
Proof.
  intros Hpost. induction s as [|c s IH]; str_simpl.
  - destruct (lstrip_by_split p post) as (pre & Hs & Hpre & _).
    apply rstrip_by_all.
    rewrite Hs, all_chars_app in Hpost. by apply andb_prop in Hpost as [_ ?].
  - destruct (p c); [done|].
    by rewrite <- app_cons_str, (rstrip_by_app_all p (String c s) post).
Qed.

(** Padding with [p]-characters is invisible to [strip_by p]. *)
Lemma strip_by_padding p pre s post :
  all_chars p pre = true -> all_chars p post = true ->
  strip_by p (pre +:+ s +:+ post) = strip_by p s.
Proof.
  intros Hpre Hpost. unfold strip_by.
  by rewrite lstrip_by_all, lstrip_by_app_all.
Qed.

Lemma strip_by_idem p s : strip_by p (strip_by p s) = strip_by p s.
Proof.
  destruct (strip_by_split p s) as (pre & post & Hs & Hpre & Hpost & _).
  rewrite Hs at 2. by rewrite strip_by_padding.
Qed.

Lemma isspace_lower_char c : isspace (lower_char c) = isspace c.
Proof. by destruct c as [[] [] [] [] [] [] [] []]. Qed.

Lemma lower_char_idem c : lower_char (lower_char c) = lower_char c.
Proof. by destruct c as [[] [] [] [] [] [] [] []]. Qed.

Lemma lower_idem s : lower (lower s) = lower s.
Proof. induction s; simpl; [done|]. by rewrite lower_char_idem, IHs. Qed.

Lemma lstrip_lower s : lstrip_by isspace (lower s) = lower (lstrip_by isspace s).
Proof.
  induction s as [|c s IH]; simpl; [done|].
  rewrite isspace_lower_char. by destruct (isspace c).
Qed.

Lemma rstrip_lower s : rstrip_by isspace (lower s) = lower (rstrip_by isspace s).
Proof.
  induction s as [|c s IH]; simpl; [done|].
  rewrite IH, isspace_lower_char.
  destruct (rstrip_by isspace s); simpl; [|done]. by destruct (isspace c).
Qed.

(** [strip] and [lower] commute. *)
Lemma strip_lower s : strip (lower s) = lower (strip s).
Proof. unfold strip, strip_by. by rewrite lstrip_lower, rstrip_lower. Qed.

(** ** [get_matching_secrets_id] *)

Lemma same_folded_padding pre s post t :
  all_chars isspace pre = true -> all_chars isspace post = true ->
  same_folded t (pre +:+ s +:+ post) <-> same_folded t s.
Proof.
  intros Hpre Hpost. unfold same_folded, strip.
  by rewrite strip_by_padding.
Qed.

Lemma same_folded_lower s t : same_folded t (lower s) <-> same_folded t s.
Proof. unfold same_folded. by rewrite strip_lower, lower_idem. Qed.

(** One turn of the loop, with its handler: it returns the name when the
    name designates the secrets, and falls through otherwise; it never
    raises. *)
Lemma secrets_turn name submod main_id :
  let turn := try_except (secrets_section_matches name submod main_id)
                is_ValueError (fun _ => Ok None) in
  (names_secret name submod main_id /\ turn = Ok (Some name))
  \/ (~ names_secret name submod main_id /\ turn = Ok None).
Proof.
  unfold names_secret, secrets_section_matches, same_folded. simpl.
  destruct (split_from "::" 0 name) as [|a [|b [|c pieces]]] eqn:Hsplit;
    simpl.
  - right. split; [|done]. by intros (a & b & [=] & _).
  - right. split; [|done]. by intros (a' & b & [=] & _).
  - destruct (decide (lower (strip a) = lower (strip submod))) as [Ha|Ha];
      destruct (decide (lower (strip b) = lower (strip main_id))) as [Hb|Hb].
    + left. rewrite !bool_decide_eq_true_2 by done. split; [|done]. eauto.
    + right. rewrite (bool_decide_eq_false_2 _ Hb), andb_false_r.
      split; [|done]. intros (a' & b' & [= <- <-] & _ & ?). done.
    + right. rewrite (bool_decide_eq_false_2 _ Ha).
      split; [|done]. intros (a' & b' & [= <- <-] & ? & _). done.
    + right. rewrite (bool_decide_eq_false_2 _ Ha).
      split; [|done]. intros (a' & b' & [= <- <-] & ? & _). done.
  - right. split; [|done]. by intros (a' & b' & [=] & _).
Qed.

(** The loop returns the first name that designates the secrets. *)
Lemma secrets_loop_first names submod main_id :
  exists r,
    secrets_loop names submod main_id = Ok r
    /\ match r with
       | Some name =>
           exists before after,
             names = before ++ name :: after
             /\ names_secret name submod main_id
             /\ Forall (fun n => ~ names_secret n submod main_id) before
       | None => Forall (fun n => ~ names_secret n submod main_id) names
       end.
Proof.
  induction names as [|name names (r & Hr & IH)]; simpl.
  - by exists None.
  - destruct (secrets_turn name submod main_id) as [[Hm ->]|[Hm ->]]; simpl.
    + exists (Some name). split; [done|]. by exists [], names.
    + exists r. split; [done|]. destruct r as [found|].
      * destruct IH as (before & after & -> & ? & ?).
        exists (name :: before), after. by repeat constructor.
      * by constructor.
Qed.

Lemma names_secret_query_padding name pre s post pre' m post' :
  all_chars isspace pre = true -> all_chars isspace post = true ->
  all_chars isspace pre' = true -> all_chars isspace post' = true ->
  names_secret name (pre +:+ s +:+ post) (pre' +:+ m +:+ post')
  <-> names_secret name s m.
Proof.
  intros. unfold names_secret.
  split; intros (a & b & ? & Ha & Hb); exists a, b; (split; [done|]);
    rewrite !same_folded_padding in * by done; done.
Qed.

Lemma names_secret_query_lower name s m :
  names_secret name (lower s) (lower m) <-> names_secret name s m.
Proof.
  unfold names_secret.
  split; intros (a & b & ? & Ha & Hb); exists a, b; (split; [done|]);
    rewrite !same_folded_lower in *; done.
Qed.

(** The loop depends on the query only through what the names designate. *)
Lemma secrets_loop_ext names s m s' m' :
  (forall name, names_secret name s m <-> names_secret name s' m') ->
  secrets_loop names s m = secrets_loop names s' m'.
Proof.
  intros Hext. induction names as [|name names IH]; simpl; [done|].
  destruct (secrets_turn name s m) as [[Hm ->]|[Hm ->]];
    destruct (secrets_turn name s' m') as [[Hm' ->]|[Hm' ->]]; simpl;
    try done; exfalso; specialize (Hext name); tauto.
Qed.

(** C4.  [get_matching_secrets_id] never raises and returns the first name,
    in the order of iteration, both of whose parts equal the queried
    subsystem and id up to case and surrounding white space; the answer is
    unchanged when the query is padded with white space or lowered; and the
    section of the example is found by the lower-case query. *)
Theorem get_matching_secrets_id_first (secrets_cp : ConfigParser)
    (submod main_id : string) :
  (exists r,
     get_matching_secrets_id secrets_cp submod main_id = Ok r
     /\ match r with
        | Some name =>
            exists before after,
              ConfigParser_iter secrets_cp = before ++ name :: after
              /\ names_secret name submod main_id
              /\ Forall (fun n => ~ names_secret n submod main_id) before
        | None =>
            Forall (fun n => ~ names_secret n submod main_id)
              (ConfigParser_iter secrets_cp)
        end)
  /\ (forall pre post pre' post',
        all_chars isspace pre = true -> all_chars isspace post = true ->
        all_chars isspace pre' = true -> all_chars isspace post' = true ->
        get_matching_secrets_id secrets_cp
          (pre +:+ submod +:+ post) (pre' +:+ main_id +:+ post')
        = get_matching_secrets_id secrets_cp submod main_id)
  /\ get_matching_secrets_id secrets_cp (lower submod) (lower main_id)
     = get_matching_secrets_id secrets_cp submod main_id
  /\ get_matching_secrets_id example_secrets "broker" "myid"
     = Ok (Some " Broker :: MyId ").
Proof.
  unfold get_matching_secrets_id. split; [apply secrets_loop_first|].
  split; [|split; [|done]].
  - intros. apply secrets_loop_ext. intros name.
    by apply names_secret_query_padding.
  - apply secrets_loop_ext. intros name. apply names_secret_query_lower.
Qed.

(** C5.  A name whose split on the separator does not give exactly two
    parts is passed over without an error, and [None] is returned when no
    name of the store designates the queried secrets. *)
Theorem get_matching_secrets_id_skips (secrets_cp : ConfigParser)
    (submod main_id : string) :
  (forall name rest,
     (forall a b, split name "::" <> Ok [a; b]) ->
     secrets_loop (name :: rest) submod main_id
     = secrets_loop rest submod main_id)
  /\ ((forall name, name ∈ ConfigParser_iter secrets_cp ->
                    ~ names_secret name submod main_id) ->
      get_matching_secrets_id secrets_cp submod main_id = Ok None).
Proof.
  split.
  - intros name rest Hsplit. simpl.
    destruct (secrets_turn name submod main_id) as [[Hm ->]|[Hm ->]];
      simpl; [|done].
    destruct Hm as (a & b & Hab & _). by apply Hsplit in Hab.
  - intros Hnone. unfold get_matching_secrets_id.
    destruct (secrets_loop_first (ConfigParser_iter secrets_cp) submod main_id)
      as (r & -> & Hr).
    destruct r as [name|]; [|done].
    destruct Hr as (before & after & Hiter & Hm & _).
    exfalso. apply (Hnone name); [|done].
    rewrite Hiter. apply elem_of_app. right. by left.
Qed.

(** ** [split] and [join] *)

Local Arguments String.prefix : simpl never.

Lemma split_from_nonempty sep skip s : split_from sep skip s <> [].
Proof.
  revert skip. induction s as [|c s IH]; intros skip; simpl; [done|].
  destruct skip; [|done].
  destruct (String.prefix sep (String c s)); [done|].
  by destruct (split_from sep 0 s).
Qed.

Lemma join_cons_char sep c piece rest :
  join sep (String c piece :: rest) = String c (join sep (piece :: rest)).
Proof. by destruct rest. Qed.

Lemma join_cons_nonempty sep piece rest :
  rest <> [] -> join sep (piece :: rest) = piece +:+ sep +:+ join sep rest.
Proof. by destruct rest. Qed.

Lemma prefix_nil s : String.prefix "" s = true.
Proof. by destruct s. Qed.

Lemma prefix_cons c sep d s :
  String.prefix (String c sep) (String d s)
  = if ascii_dec c d then String.prefix sep s else false.
Proof. done. Qed.

Lemma prefix_drop sep s :
  String.prefix sep s = true ->
  s = sep +:+ drop_str (String.length sep) s
  /\ (String.length sep <= String.length s)%nat.
Proof.
  revert s. induction sep as [|c sep IH]; intros s.
  - intros _. split; [by destruct s|simpl; lia].
  - destruct s as [|d s]; [done|]. rewrite prefix_cons.
    destruct (ascii_dec c d) as [->|]; [|done].
    intros [Hs Hlen]%IH. str_simpl. split; [by rewrite <- Hs|lia].
Qed.

Lemma drop_str_pred c sep s :
  drop_str (Nat.pred (String.length (String c sep))) s
  = drop_str (String.length (String c sep)) (String c s).
Proof. done. Qed.

(** The pieces of a split, joined by the separator, are the string that
    was split. *)
Lemma join_split_from sep s skip :
  sep <> "" -> (skip <= String.length s)%nat ->
  join sep (split_from sep skip s) = drop_str skip s.
Proof.
  intros Hsep. revert skip.
  induction s as [|c s IH]; intros skip Hskip; simpl in *.
  - by destruct skip.
  - destruct skip as [|k]; [|apply IH; lia].
    destruct (String.prefix sep (String c s)) eqn:Hpre.
    + apply prefix_drop in Hpre as [Hs Hlen].
      rewrite join_cons_nonempty by apply split_from_nonempty.
      destruct sep as [|c' sep]; [done|]. simpl in Hlen.
      rewrite IH by (simpl; lia). rewrite app_nil_str.
      simpl drop_str at 2. by rewrite Hs at 1.
    + pose proof (split_from_nonempty sep 0 s) as Hne.
      specialize (IH 0%nat ltac:(lia)).
      destruct (split_from sep 0 s) as [|piece rest]; [done|].
      rewrite join_cons_char. by rewrite IH.
Qed.

Lemma split_Ok s sep :
  sep <> "" -> split s sep = Ok (split_from sep 0 s).
Proof. by destruct sep. Qed.

Lemma join_split s sep pieces :
  split s sep = Ok pieces -> join sep pieces = s.
Proof.
  destruct sep as [|c sep]; [done|]. intros [= <-].
  by apply (join_split_from (String c sep) s 0); [|lia].
Qed.

(** ** [parse_list_from_conf_string] *)

Section ParseFacts.
Context {FR : FloatRuntime}.

Lemma cast_ok_unrecognised v val_type :
  recognised val_type = false -> cast_ok v val_type = None.
Proof.
  intros Hk. unfold cast_ok, cast_var.
  by rewrite !(is_member_unrecognised _ _ Hk).
Qed.

(** One turn of the loop appends the cast value or nothing. *)
Lemma parse_item_spec val_type strip_quotes list_out val :
  parse_item val_type strip_quotes list_out val
  = Ok (list_out
        ++ option_list (cast_ok (VStr (prepared strip_quotes val)) val_type)).
Proof.
  unfold parse_item, cast_ok, prepared.
  destruct (cast_var _ val_type false) as [w|e] eqn:Hcast; simpl; [done|].
  apply cast_var_str_raises in Hcast. rewrite Hcast.
  by rewrite app_nil_r.
Qed.

Lemma parse_loop_spec val_type strip_quotes vals list_out :
  parse_loop val_type strip_quotes vals list_out
  = Ok (list_out
        ++ omap (fun val => cast_ok (VStr (prepared strip_quotes val)) val_type)
             vals).
Proof.
  revert list_out. induction vals as [|val vals IH]; intros list_out; simpl.
  - by rewrite app_nil_r.
  - rewrite parse_item_spec. simpl. rewrite IH. f_equal.
    rewrite <- app_assoc. f_equal.
    by destruct (cast_ok _ val_type).
Qed.

Lemma parse_list_nonempty s val_type delim strip_quotes :
  s <> "" -> delim <> "" ->
  parse_list_from_conf_string (Some s) val_type delim strip_quotes
  = Ok (omap (fun val => cast_ok (VStr (prepared strip_quotes val)) val_type)
          (split_from delim 0 s)).
Proof.
  intros Hs Hd. unfold parse_list_from_conf_string.
  destruct s; [done|]. rewrite split_Ok by done. simpl.
  by rewrite parse_loop_spec.
Qed.

(** C6.  Empty and null input give the empty list.  A non-empty input is
    split on the delimiter (the pieces, joined by the delimiter, are the
    input); each piece is trimmed of its surrounding white space; the
    result holds, in the order of the pieces, the values of the pieces
    that cast, the others being dropped without an error; so the four
    pieces of the example give three integers. *)
Theorem parse_list_from_conf_string_spec (val_type : PyVal) (delim : string)
    (strip_quotes : bool) :
  parse_list_from_conf_string None val_type delim strip_quotes = Ok []
  /\ parse_list_from_conf_string (Some "") val_type delim strip_quotes = Ok []
  /\ (forall s, s <> "" -> delim <> "" ->
        exists pieces,
          split s delim = Ok pieces /\ join delim pieces = s
          /\ parse_list_from_conf_string (Some s) val_type delim strip_quotes
             = Ok (omap (fun val =>
                           cast_ok (VStr (prepared strip_quotes val)) val_type)
                     pieces))
  /\ (forall val,
        prepared false val = strip val
        /\ exists pre post,
             val = pre +:+ strip val +:+ post
             /\ all_chars isspace pre = true /\ all_chars isspace post = true
             /\ not_at isspace (first_char (strip val))
             /\ not_at isspace (last_char (strip val)))
  /\ parse_list_from_conf_string (Some "1, 2, , 4") (VEnum INT) "," false
     = Ok [VInt 1; VInt 2; VInt 4].
Proof.
  split; [done|]. split; [done|]. split; [|split; [|done]].
  - intros s Hs Hd. exists (split_from delim 0 s).
    split; [by apply split_Ok|].
    split; [by apply (join_split s delim), split_Ok|].
    by apply parse_list_nonempty.
  - intros val. split; [done|]. apply strip_by_split.
Qed.

Lemma mem_quote_chars c : mem_char c quote_chars = is_quote c.
Proof. unfold is_quote. simpl. by rewrite orb_false_r. Qed.

Lemma lstrip_by_ext p q s :
  (forall c, p c = q c) -> lstrip_by p s = lstrip_by q s.
Proof. intros H. induction s as [|c s IH]; simpl; [done|]. by rewrite H, IH. Qed.

Lemma rstrip_by_ext p q s :
  (forall c, p c = q c) -> rstrip_by p s = rstrip_by q s.
Proof. intros H. induction s as [|c s IH]; simpl; [done|]. by rewrite H, IH. Qed.

Lemma strip_chars_quotes s : strip_chars quote_chars s = strip_by is_quote s.
Proof.
  unfold strip_chars, strip_by.
  rewrite (lstrip_by_ext _ is_quote) by apply mem_quote_chars.
  apply rstrip_by_ext, mem_quote_chars.
Qed.

Lemma unquoted_strip_chars val :
  unquoted val (strip_chars quote_chars (strip val)).
Proof.
  rewrite strip_chars_quotes.
  destruct (strip_by_split is_quote (strip val)) as (pre & post & ?).
  by exists pre, post.
Qed.

(** C7 (amended).  With [strip_quotes] set, every quotation mark at either
    end of the trimmed piece is removed, whatever the number and the mix of
    the two marks; what is left is trimmed again and cast. *)
Theorem parse_list_strip_quotes (val_type : PyVal) (delim s : string) :
  s <> "" -> delim <> "" ->
  exists pieces mids,
    split s delim = Ok pieces
    /\ Forall2 unquoted pieces mids
    /\ parse_list_from_conf_string (Some s) val_type delim true
       = Ok (omap (fun mid => cast_ok (VStr (strip mid)) val_type) mids).
Proof.
  intros Hs Hd.
  exists (split_from delim 0 s),
    (map (fun val => strip_chars quote_chars (strip val)) (split_from delim 0 s)).
  split; [by apply split_Ok|]. split.
  - apply Forall2_fmap_r, Forall_Forall2_diag, Forall_forall.
    intros val _. apply unquoted_strip_chars.
  - rewrite parse_list_nonempty by done. f_equal.
    unfold prepared.
    induction (split_from delim 0 s) as [|val vals IH]; simpl; [done|].
    destruct (cast_ok _ val_type); simpl; [apply (f_equal (cons _))|];
      exact IH.
Qed.

(** C10 (amended).  With a delimiter that is not empty, or with an input
    that is empty or null, [parse_list_from_conf_string] does not raise,
    whatever the value type; a value type outside [CastType] gives the
    empty list. *)
Theorem parse_list_never_raises (conf_str : option string) (val_type : PyVal)
    (delim : string) (strip_quotes : bool) :
  delim <> "" \/ conf_str = None \/ conf_str = Some "" ->
  exists list_out,
    parse_list_from_conf_string conf_str val_type delim strip_quotes
    = Ok list_out
    /\ (recognised val_type = false -> list_out = []).
Proof.
  intros Hd.
  destruct conf_str as [s|]; [|by exists []].
  destruct (decide (s = "")) as [->|Hs]; [by exists []|].
  destruct Hd as [Hd|[?|?]]; [|done|by simplify_eq].
  rewrite parse_list_nonempty by done. eexists. split; [done|].
  intros Hk. induction (split_from delim 0 s) as [|val vals IH]; simpl; [done|].
  by rewrite cast_ok_unrecognised.
Qed.

End ParseFacts.

(** ** [int] after [str] on integers *)








(** ** The statements at concrete inputs *)

Lemma cast_var_unrecognised_witness :
  recognised (FR := Binary64.runtime) (VStr "int") = false
  /\ cast_var (FR := Binary64.runtime) (VStr "5") (VStr "int") false
     = Raise TypeError
  /\ cast_var (FR := Binary64.runtime) (VStr "5") (VStr "int") true
     = Ok (VStr "5").
Proof.
  split; [reflexivity|].
  apply (cast_var_unrecognised (FR := Binary64.runtime) (VStr "5") (VStr "int")).
  reflexivity.
Defined.



Lemma get_matching_secrets_id_first_witness :
  get_matching_secrets_id example_secrets (" " +:+ "broker" +:+ "  ")
    ("" +:+ "myid" +:+ " ")
  = get_matching_secrets_id example_secrets "broker" "myid"
  /\ get_matching_secrets_id example_secrets "broker" "myid"
     = Ok (Some " Broker :: MyId ").
Proof.
  pose proof (get_matching_secrets_id_first example_secrets "broker" "myid")
    as (_ & Hpad & _ & Hex).
  split; [|exact Hex].
  apply (Hpad " " "  " "" " "); reflexivity.
Defined.

Lemma get_matching_secrets_id_skips_witness :
  secrets_loop ["DEFAULT"; "broker::myid"] "broker" "myid"
  = secrets_loop ["broker::myid"] "broker" "myid"
  /\ get_matching_secrets_id ConfigParser_new "broker" "myid" = Ok None.
Proof.
  pose proof (get_matching_secrets_id_skips ConfigParser_new "broker" "myid")
    as [Hskip Hnone].
  split.
  - apply Hskip. intros a b H. discriminate H.
  - apply Hnone. intros name Hin (a & b & Hsplit & _).
    apply list_elem_of_singleton in Hin. subst name. discriminate Hsplit.
Defined.

Lemma parse_list_from_conf_string_spec_witness :
  exists pieces,
    split "1, 2, , 4" "," = Ok pieces /\ join "," pieces = "1, 2, , 4"
    /\ parse_list_from_conf_string (FR := Binary64.runtime) (Some "1, 2, , 4")
         (VEnum INT) "," false
       = Ok (omap (fun val => cast_ok (VStr (prepared false val)) (VEnum INT))
               pieces).
Proof.
  pose proof (parse_list_from_conf_string_spec (FR := Binary64.runtime)
                (VEnum INT) "," false) as (_ & _ & H & _).
  apply (H "1, 2, , 4"); discriminate.
Defined.

Lemma parse_list_strip_quotes_witness :
  exists pieces mids,
    split ("'a', " +:+ dquote +:+ "b" +:+ dquote) "," = Ok pieces
    /\ Forall2 unquoted pieces mids
    /\ parse_list_from_conf_string (FR := Binary64.runtime)
         (Some ("'a', " +:+ dquote +:+ "b" +:+ dquote)) (VEnum STRING) "," true
       = Ok (omap (fun mid => cast_ok (VStr (strip mid)) (VEnum STRING)) mids).
Proof.
  apply (parse_list_strip_quotes (FR := Binary64.runtime) (VEnum STRING) ","
           ("'a', " +:+ dquote +:+ "b" +:+ dquote)); discriminate.
Defined.

(** C7 as stated fails: two nested layers of quotation marks are both
    removed, and so is a pair of marks that do not match, where the
    one-layer stripping of the specification leaves a layer, or both
    marks, in place. *)
Lemma parse_list_strips_more_than_one_layer :
  parse_list_from_conf_string (FR := Binary64.runtime) (Some "''ab''")
    (VEnum STRING) "," true = Ok [VStr "ab"]
  /\ strip_one_quote_layer (strip "''ab''") = "'ab'"
  /\ parse_list_from_conf_string (FR := Binary64.runtime)
       (Some ("'ab" +:+ dquote)) (VEnum STRING) "," true = Ok [VStr "ab"]
  /\ strip_one_quote_layer (strip ("'ab" +:+ dquote)) = "'ab" +:+ dquote.
Proof. repeat split; reflexivity. Qed.

Lemma parse_list_never_raises_witness :
  exists list_out,
    parse_list_from_conf_string (FR := Binary64.runtime) (Some "1, 2")
      (VStr "int") "," false = Ok list_out
    /\ (recognised (FR := Binary64.runtime) (VStr "int") = false
        -> list_out = []).
Proof.
  apply (parse_list_never_raises (FR := Binary64.runtime) (Some "1, 2")
           (VStr "int") "," false).
  left. discriminate.
Defined.

(** C10 as stated fails: with the empty delimiter [split] raises
    [ValueError] outside the [try], and the call raises. *)
Lemma parse_list_empty_delimiter_raises :
  parse_list_from_conf_string (FR := Binary64.runtime) (Some "1,2")
    (VEnum INT) "" false = Raise ValueError.
Proof. reflexivity. Qed.

(* ===================================================================== *)
(** * Part III.  Further properties of the code                           *)
(* ===================================================================== *)

(** ** [cast_var] *)

Section CastMore.
Context {FR : FloatRuntime}.


(** X2.  With [fallback_to_original] set, [cast_var] raises neither
    [TypeError] nor [ValueError]: what it returns is the value the strict
    call returns or else the original value, and an exception that escapes
    is one the strict call raises too. *)
Theorem cast_var_fallback (var cast_type : PyVal) :
  match cast_var var cast_type true with
  | Ok w => cast_var var cast_type false = Ok w
            \/ (w = var /\ exists e, cast_var var cast_type false = Raise e
                                     /\ TypeError_or_ValueError e = true)
  | Raise e => TypeError_or_ValueError e = false
               /\ cast_var var cast_type false = Raise e
  end.
Proof.
  unfold cast_var.
  destruct (if is_member cast_type INT then _ else _) as [w|e]; simpl.
  - by left.
  - destruct (TypeError_or_ValueError e) eqn:He; [|done].
    right. eauto.
Qed.

(** X3.  Casting is idempotent: a value obtained by a cast to one of the
    three types is left unchanged by a further cast to that type. *)
Theorem cast_var_idempotent (var w : PyVal) (t : CastType)
    (fallback_to_original : bool) :
  cast_var var (VEnum t) false = Ok w ->
  cast_var w (VEnum t) fallback_to_original = Ok w.
Proof.
  unfold cast_var. destruct t; simpl.
  - destruct (py_int var) as [z|e]; simpl.
    + by intros [= <-].
    + by destruct (TypeError_or_ValueError e).
  - destruct (py_float var) as [f|e]; simpl.
    + by intros [= <-].
    + by destruct (TypeError_or_ValueError e).
  - by intros [= <-].
Qed.

End CastMore.

Lemma cast_var_idempotent_witness :
  cast_var (FR := Binary64.runtime) (VStr " 42 ") (VEnum INT) false
  = Ok (VInt 42)
  /\ cast_var (FR := Binary64.runtime) (VInt 42) (VEnum INT) true
     = Ok (VInt 42).
Proof.
  split; [reflexivity|].
  apply (cast_var_idempotent (FR := Binary64.runtime) (VStr " 42 ")).
  reflexivity.
Defined.

(** ** [parse_list_from_conf_string] *)
















Section ParseMore.
Context {FR : FloatRuntime}.

(** X4.  With [CastType.STRING] no piece is dropped, not even an empty
    one: the result holds the prepared text of every piece. *)
Theorem parse_list_string_keeps_all (s delim : string) (strip_quotes : bool) :
  s <> "" -> delim <> "" ->
  exists pieces,
    split s delim = Ok pieces
    /\ parse_list_from_conf_string (Some s) (VEnum STRING) delim strip_quotes
       = Ok (map (fun val => VStr (prepared strip_quotes val)) pieces).
Proof.
  intros Hs Hd. exists (split_from delim 0 s). split; [by apply split_Ok|].
  rewrite parse_list_nonempty by done. f_equal.
Qed.

(** X5.  With [CastType.INT] every element of the result is an [int], and
    the result is no longer than the list of pieces. *)
Theorem parse_list_int_elements (s delim : string) (strip_quotes : bool) :
  s <> "" -> delim <> "" ->
  exists pieces list_out,
    split s delim = Ok pieces
    /\ parse_list_from_conf_string (Some s) (VEnum INT) delim strip_quotes
       = Ok list_out
    /\ Forall is_VInt list_out
    /\ (length list_out <= length pieces)%nat.
Proof.
  intros Hs Hd. exists (split_from delim 0 s). eexists.
  split; [by apply split_Ok|]. split; [by apply parse_list_nonempty|].
  induction (split_from delim 0 s) as [|val vals [IH1 IH2]]; simpl.
  - split; [constructor|lia].
  - destruct (cast_ok _ (VEnum INT)) as [w|] eqn:Hw; simpl;
      change (list_omap _ _ ?f ?l) with (omap f l).
    + split; [|lia]. constructor; [|done].
      unfold cast_ok, cast_var in Hw. simpl in Hw.
      destruct (int_of_str _) as [z|e]; simpl in Hw;
        [|by destruct (TypeError_or_ValueError e)].
      exists z. congruence.
    + split; [done|lia].
Qed.


End ParseMore.

Lemma parse_list_string_keeps_all_witness :
  exists pieces,
    split "a, , b" "," = Ok pieces
    /\ parse_list_from_conf_string (FR := Binary64.runtime) (Some "a, , b")
         (VEnum STRING) "," false
       = Ok (map (fun val => VStr (prepared false val)) pieces).
Proof.
  apply (parse_list_string_keeps_all (FR := Binary64.runtime) "a, , b" "," false);
    discriminate.
Defined.

Lemma parse_list_int_elements_witness :
  exists pieces list_out,
    split "1, x, 3" "," = Ok pieces
    /\ parse_list_from_conf_string (FR := Binary64.runtime) (Some "1, x, 3")
         (VEnum INT) "," false = Ok list_out
    /\ Forall is_VInt list_out
    /\ (length list_out <= length pieces)%nat.
Proof.
  apply (parse_list_int_elements (FR := Binary64.runtime) "1, x, 3" "," false);
    discriminate.
Defined.


(** ** [get_matching_secrets_id] and the file readers *)

Lemma split_colons_no_colon s :
  all_chars (other_than ":") s = true -> split_from "::" 0 s = [s].
Proof.
  induction s as [|d s IH]; simpl; [done|].
  intros [Hd Hs]%andb_prop. rewrite prefix_cons.
  destruct (ascii_dec ":" d) as [<-|_]; [done|]. by rewrite IH.
Qed.

(** A name made of two parts free of colons, with the separator between
    them, splits into these two parts. *)
Lemma split_colons_pair a b :
  all_chars (other_than ":") a = true ->
  all_chars (other_than ":") b = true ->
  split (a +:+ "::" +:+ b) "::" = Ok [a; b].
Proof.
  intros Ha Hb. unfold split. f_equal.
  induction a as [|d a IH].
  - rewrite app_nil_str, !app_cons_str, app_nil_str. cbn [split_from].
    rewrite !prefix_cons. simpl. rewrite prefix_nil.
    by rewrite split_colons_no_colon.
  - apply andb_prop in Ha as [Hd Ha]. rewrite app_cons_str.
    cbn [split_from]. rewrite prefix_cons.
    destruct (ascii_dec ":" d) as [<-|_]; [done|]. by rewrite IH.
Qed.

(** X7.  When some section name of the store designates the queried
    secrets, a name that does is returned; in particular the section named
    by the subsystem, the separator and the id is enough, when neither
    holds a colon. *)
Theorem get_matching_secrets_id_finds (secrets_cp : ConfigParser)
    (submod main_id : string) :
  ((exists name, name ∈ ConfigParser_iter secrets_cp
                 /\ names_secret name submod main_id)
   \/ (all_chars (other_than ":") submod = true
       /\ all_chars (other_than ":") main_id = true
       /\ (submod +:+ "::" +:+ main_id) ∈ ConfigParser_iter secrets_cp)) ->
  exists found,
    get_matching_secrets_id secrets_cp submod main_id = Ok (Some found)
    /\ found ∈ ConfigParser_iter secrets_cp
    /\ names_secret found submod main_id.
Proof.
  intros H.
  assert (exists name, name ∈ ConfigParser_iter secrets_cp
                        /\ names_secret name submod main_id)
    as (name & Hin & Hname).
  { destruct H as [H|(Ha & Hb & Hin)]; [done|].
    eexists. split; [exact Hin|]. exists submod, main_id.
    split; [by apply split_colons_pair|]. done. }
  unfold get_matching_secrets_id.
  destruct (secrets_loop_first (ConfigParser_iter secrets_cp) submod main_id)
    as (r & -> & Hr).
  destruct r as [found|].
  - destruct Hr as (before & after & Hiter & Hfound & _).
    exists found. split; [done|]. split; [|done].
    rewrite Hiter. apply elem_of_app. right. by left.
  - rewrite Forall_forall in Hr. by apply Hr in Hin.
Qed.

Section FilesMore.
Variable read_lines : list string -> ConfigParser -> res ConfigParser.



End FilesMore.

Lemma get_matching_secrets_id_finds_witness :
  exists found,
    get_matching_secrets_id example_secrets "broker" "myid" = Ok (Some found)
    /\ found ∈ ConfigParser_iter example_secrets
    /\ names_secret found "broker" "myid".
Proof.
  apply (get_matching_secrets_id_finds example_secrets "broker" "myid").
  right. split; [reflexivity|]. split; [reflexivity|].
  unfold ConfigParser_iter. simpl. do 3 apply list_elem_of_further.
  apply list_elem_of_here.
Defined.



(** ** [Database.matches_id_criteria] *)

(** X10.  Leaving a criterion out never loses a match: an instance that
    matches an id together with an environment and a type also matches the
    id alone, the id with the environment, and the id with the type. *)
Theorem matches_id_criteria_fewer_criteria (self : Database) (db_id : string)
    (env db_type : option string) :
  matches_id_criteria self (Some db_id) env db_type = Ok true ->
  matches_id_criteria self (Some db_id) None None = Ok true
  /\ matches_id_criteria self (Some db_id) env None = Ok true
  /\ matches_id_criteria self (Some db_id) None db_type = Ok true.
Proof.
  unfold matches_id_criteria.
  destruct (bool_decide (db_id ≠ _cp_db_id self)); [done|].
  destruct env as [e|], db_type as [t|];
    repeat destruct (bool_decide _); done.
Qed.

(** X11.  An instance built by the initialiser is found again by the id and
    the environment it was built with, together with any type name of its
    class, whatever its secrets id and connection parameters; it is not
    found under another id. *)
Theorem Database_init_matches_itself (c : DatabaseClass)
    (env cp_db_id cp_secrets_id host : string) (port : Z) (database : string)
    (db_type other_id : string) (env' db_type' : option string) :
  db_type ∈ get_type_names c -> other_id <> cp_db_id ->
  let self := Database_init c env cp_db_id cp_secrets_id host port database in
  matches_id_criteria self (Some cp_db_id) (Some env) (Some db_type) = Ok true
  /\ matches_id_criteria self (Some other_id) env' db_type' = Ok false.
Proof.
  intros Ht Hid. unfold matches_id_criteria, Database_init. simpl.
  rewrite (bool_decide_eq_false_2 (cp_db_id ≠ cp_db_id)) by (by intros ?).
  rewrite (bool_decide_eq_false_2 (env ≠ env)) by (by intros ?).
  rewrite (bool_decide_eq_false_2 (db_type ∉ _)) by (by intros ?).
  by rewrite (bool_decide_eq_true_2 (other_id ≠ cp_db_id)).
Qed.

Lemma matches_id_criteria_fewer_criteria_witness :
  let self := Database_init {| get_type_names := ["postgres"] |} "test" "mydb"
                "database::mydb" "localhost" 5432 "trading" in
  matches_id_criteria self (Some "mydb") (Some "test") (Some "postgres")
  = Ok true
  /\ matches_id_criteria self (Some "mydb") None None = Ok true
  /\ matches_id_criteria self (Some "mydb") (Some "test") None = Ok true
  /\ matches_id_criteria self (Some "mydb") None (Some "postgres") = Ok true.
Proof.
  split; [reflexivity|].
  apply (matches_id_criteria_fewer_criteria _ "mydb" (Some "test")
           (Some "postgres")).
  reflexivity.
Defined.

Lemma Database_init_matches_itself_witness :
  let self := Database_init {| get_type_names := ["postgres"] |} "test" "mydb"
                "database::mydb" "localhost" 5432 "trading" in
  matches_id_criteria self (Some "mydb") (Some "test") (Some "postgres")
  = Ok true
  /\ matches_id_criteria self (Some "otherdb") None None = Ok false.
Proof.
  apply (Database_init_matches_itself {| get_type_names := ["postgres"] |}
           "test" "mydb" "database::mydb" "localhost" 5432 "trading"
           "postgres" "otherdb" None None).
  - apply list_elem_of_here.
  - discriminate.
Defined.

(** ** [LevelFilter] *)

Lemma int_of_str_raises s e : int_of_str s = Raise e -> e = ValueError.
Proof.
  unfold int_of_str. repeat case_match; simplify_eq; by intros [= <-].
Qed.

Section LevelFilterFacts.
Context {FR : FloatRuntime}.

Lemma level_of_arg_level_arg reg bound :
  level_of_arg reg (level_arg bound)
  = Ok (match bound with Some z => LvInt z | None => LvNone end).
Proof. by destruct bound. Qed.

(** X12.  A filter built from numbers lets a record pass exactly when its
    level is above the lower bound and at most the upper bound; a bound
    that is not given is not checked. *)
Theorem LevelFilter_window (reg : gmap string Z) (mn mx : option Z) (n : Z) :
  exists self,
    LevelFilter_init reg (level_arg mn) (level_arg mx) = Ok self
    /\ LevelFilter_filter self n = Ok (bool_decide (in_window mn mx n)).
Proof.
  unfold LevelFilter_init. rewrite !level_of_arg_level_arg. simpl.
  eexists. split; [done|].
  unfold LevelFilter_filter, in_window. simpl.
  destruct mn as [a|], mx as [b|]; simpl.
  - destruct (Z.leb_spec n a), (Z.ltb_spec b n); simpl; f_equal;
      symmetry; (apply bool_decide_eq_true_2 + apply bool_decide_eq_false_2);
      lia.
  - destruct (Z.leb_spec n a); simpl; f_equal;
      symmetry; (apply bool_decide_eq_true_2 + apply bool_decide_eq_false_2);
      lia.
  - destruct (Z.ltb_spec b n); simpl; f_equal;
      symmetry; (apply bool_decide_eq_true_2 + apply bool_decide_eq_false_2);
      lia.
  - done.
Qed.

Lemma level_of_arg_str reg s :
  level_of_arg reg (VStr s)
  = match int_of_str s with
    | Ok z => Ok (LvInt z)
    | Raise _ => Ok (getLevelName reg (upper s))
    end.
Proof.
  unfold level_of_arg. simpl.
  destruct (int_of_str s) as [z|e] eqn:Hs; [done|].
  by rewrite (int_of_str_raises _ _ Hs).
Qed.

(** X13.  A level written as a decimal string, or as a name of the level
    table in any letter case, builds the same filter as the number. *)
Theorem LevelFilter_level_spellings (reg : gmap string Z) (s : string)
    (z : Z) (other : PyVal) :
  int_of_str s = Ok z
  \/ (is_Ok (int_of_str s) = false
      /\ exists name, latin1 (upper s) = Some name /\ reg !! name = Some z) ->
  LevelFilter_init reg (VStr s) other = LevelFilter_init reg (VInt z) other
  /\ LevelFilter_init reg other (VStr s) = LevelFilter_init reg other (VInt z).
Proof.
  intros H.
  assert (level_of_arg reg (VStr s) = level_of_arg reg (VInt z)) as Heq.
  { rewrite level_of_arg_str.
    destruct H as [->|(Hs & name & Hname & Hreg)]; [done|].
    destruct (int_of_str s); [done|].
    unfold getLevelName. rewrite Hname. simpl. by rewrite Hreg. }
  unfold LevelFilter_init. by rewrite Heq.
Qed.

(** X14.  A level name that is neither a number nor in the level table
    does not make [__init__] fail: the filter is built, and then raises
    [TypeError] on every record whose bound is reached. *)
Theorem LevelFilter_unknown_name (reg : gmap string Z) (s : string) :
  is_Ok (int_of_str s) = false ->
  latin1 (upper s) ≫= (reg !!.) = None ->
  (exists self,
     LevelFilter_init reg VNone (VStr s) = Ok self
     /\ forall n, LevelFilter_filter self n = Raise TypeError)
  /\ (forall mx : option Z,
        exists self,
          LevelFilter_init reg (VStr s) (level_arg mx) = Ok self
          /\ forall n, LevelFilter_filter self n = Raise TypeError)
  /\ (forall a : Z,
        exists self,
          LevelFilter_init reg (VInt a) (VStr s) = Ok self
          /\ forall n, LevelFilter_filter self n
                       = if n <=? a then Ok false else Raise TypeError).
Proof.
  intros Hs Hname.
  assert (level_of_arg reg (VStr s)
          = Ok (LvStr (codes_of "Level " ++ upper s))) as Hlv.
  { rewrite level_of_arg_str. destruct (int_of_str s); [done|].
    unfold getLevelName. by rewrite Hname. }
  unfold LevelFilter_init. split; [|split].
  - rewrite Hlv. eexists. split; [done|]. done.
  - intros mx. rewrite Hlv, level_of_arg_level_arg. eexists.
    split; [done|]. done.
  - intros a. rewrite Hlv. eexists. split; [done|]. intros n.
    unfold LevelFilter_filter. simpl. by destruct (n <=? a).
Qed.

(** X15.  A float that [int()] rejects with [ValueError] (a NaN) is taken
    for a level name, and [__init__] fails with [AttributeError], a float
    having no [upper]. *)
Theorem LevelFilter_float_level (reg : gmap string Z) (f : pyfloat)
    (other : PyVal) :
  int_of_float f = Raise ValueError ->
  LevelFilter_init reg (VFloat f) other = Raise AttributeError
  /\ LevelFilter_init reg VNone (VFloat f) = Raise AttributeError.
Proof.
  intros Hf. unfold LevelFilter_init, level_of_arg. simpl.
  by rewrite Hf.
Qed.

End LevelFilterFacts.

Lemma LevelFilter_level_spellings_witness :
  LevelFilter_init (FR := Binary64.runtime) default_nameToLevel
    (VStr "warning") VNone
  = LevelFilter_init (FR := Binary64.runtime) default_nameToLevel
      (VInt 30) VNone
  /\ LevelFilter_init (FR := Binary64.runtime) default_nameToLevel VNone
       (VStr "warning")
     = LevelFilter_init (FR := Binary64.runtime) default_nameToLevel VNone
         (VInt 30).
Proof.
  apply (LevelFilter_level_spellings (FR := Binary64.runtime)
           default_nameToLevel "warning" 30 VNone).
  right. split; [reflexivity|]. exists "WARNING". split; reflexivity.
Defined.

Lemma LevelFilter_unknown_name_witness :
  exists self,
    LevelFilter_init (FR := Binary64.runtime) default_nameToLevel VNone
      (VStr "loud") = Ok self
    /\ forall n, LevelFilter_filter self n = Raise TypeError.
Proof.
  apply (LevelFilter_unknown_name (FR := Binary64.runtime) default_nameToLevel
           "loud"); reflexivity.
Defined.

Lemma LevelFilter_float_level_witness :
  LevelFilter_init (FR := Binary64.runtime) default_nameToLevel
    (VFloat (FR := Binary64.runtime) S754_nan) VNone = Raise AttributeError
  /\ LevelFilter_init (FR := Binary64.runtime) default_nameToLevel VNone
       (VFloat (FR := Binary64.runtime) S754_nan) = Raise AttributeError.
Proof.
  apply (LevelFilter_float_level (FR := Binary64.runtime) default_nameToLevel
           S754_nan VNone).
  reflexivity.
Defined.

(** ** [find_existing_handler_from_config] *)

(** X16.  When the configuration has no section for the handler, the
    function returns [None] whatever the handlers of the root logger are,
    and logs the warning once for each of them. *)
Theorem find_existing_handler_missing_section (levelToName : gmap Z string)
    (root_handlers : list Handler) (logger_cp : ConfigParser)
    (handler_name : string) :
  ConfigParser_getitem logger_cp ("handler_" +:+ handler_name)
  = Raise KeyError ->
  find_existing_handler_from_config levelToName root_handlers logger_cp
    handler_name
  = (replicate (length root_handlers) (missing_section_warning handler_name),
     Ok None).
Proof.
  intros Hsec. unfold find_existing_handler_from_config.
  induction root_handlers as [|h rest IH]; simpl; [done|].
  by rewrite Hsec, IH.
Qed.

(** X17.  When the handler section is there but gives no class, neither
    itself nor through the defaults, and the root logger has a handler,
    the function raises [KeyError]: only the lookup of the section is
    inside the [try]. *)
Theorem find_existing_handler_missing_class (levelToName : gmap Z string)
    (h : Handler) (rest : list Handler) (logger_cp : ConfigParser)
    (handler_name h_conf : string) :
  ConfigParser_getitem logger_cp ("handler_" +:+ handler_name) = Ok h_conf ->
  has_option logger_cp h_conf "class" = false ->
  find_existing_handler_from_config levelToName (h :: rest) logger_cp
    handler_name
  = ([], Raise KeyError).
Proof.
  intros Hsec Hopt. unfold find_existing_handler_from_config. simpl.
  rewrite Hsec. unfold handler_turn, SectionProxy_getitem.
  by rewrite Hopt.
Qed.

Lemma handler_turn_agrees levelToName logger_cp h_conf cls lvl fmt_name
    fmt_section fmt h :
  SectionProxy_getitem logger_cp h_conf "class" = Ok cls ->
  SectionProxy_getitem logger_cp h_conf "level" = Ok lvl ->
  SectionProxy_getitem logger_cp h_conf "formatter" = Ok fmt_name ->
  ConfigParser_getitem logger_cp ("formatter_" +:+ fmt_name) = Ok fmt_section ->
  SectionProxy_getitem logger_cp fmt_section "format" = Ok fmt ->
  is_Some (formatter h) ->
  (handler_agrees levelToName cls lvl fmt h
   /\ handler_turn levelToName logger_cp h_conf h = Ok (Return h))
  \/ (~ handler_agrees levelToName cls lvl fmt h
      /\ handler_turn levelToName logger_cp h_conf h = Ok Continue).
Proof.
  intros Hcls Hlvl Hname Hsec Hfmt [f Hf].
  unfold handler_turn, handler_agrees. rewrite Hcls. simpl.
  destruct (decide (class_name h = cls)) as [Hc|Hc].
  - rewrite (bool_decide_eq_false_2 (class_name h ≠ cls)) by (by intros ?).
    simpl. rewrite Hlvl. simpl. case_bool_decide as Hl.
    { right. split; [|done]. by intros (_ & ? & _). }
    rewrite Hname. simpl. rewrite Hsec. simpl. rewrite Hfmt, Hf. simpl.
    case_bool_decide as Hff.
    + right. split; [|done]. intros (_ & _ & [= ?]). done.
    + left. split; [|done].
      repeat match goal with H : ~ _ <> _ |- _ => apply dec_stable in H end.
      subst f. eauto.
  - rewrite (bool_decide_eq_true_2 (class_name h ≠ cls)) by done.
    simpl. case_bool_decide as Hc2.
    { right. split; [|done]. by intros ([?|?] & _). }
    rewrite Hlvl. simpl. case_bool_decide as Hl.
    { right. split; [|done]. by intros (_ & ? & _). }
    rewrite Hname. simpl. rewrite Hsec. simpl. rewrite Hfmt, Hf. simpl.
    case_bool_decide as Hff.
    + right. split; [|done]. intros (_ & _ & [= ?]). done.
    + left. split; [|done].
      repeat match goal with H : ~ _ <> _ |- _ => apply dec_stable in H end.
      subst f. eauto.
Qed.

(** X18.  With a configuration that gives the class, the level, the
    formatter and the format of the handler, and handlers that all have a
    formatter, the function logs nothing and returns the first handler of
    the root logger that agrees with the configuration, or [None] when
    none does. *)
Theorem find_existing_handler_first (levelToName : gmap Z string)
    (root_handlers : list Handler) (logger_cp : ConfigParser)
    (handler_name h_conf cls lvl fmt_name fmt_section fmt : string) :
  ConfigParser_getitem logger_cp ("handler_" +:+ handler_name) = Ok h_conf ->
  SectionProxy_getitem logger_cp h_conf "class" = Ok cls ->
  SectionProxy_getitem logger_cp h_conf "level" = Ok lvl ->
  SectionProxy_getitem logger_cp h_conf "formatter" = Ok fmt_name ->
  ConfigParser_getitem logger_cp ("formatter_" +:+ fmt_name) = Ok fmt_section ->
  SectionProxy_getitem logger_cp fmt_section "format" = Ok fmt ->
  Forall (fun h => is_Some (formatter h)) root_handlers ->
  exists r,
    find_existing_handler_from_config levelToName root_handlers logger_cp
      handler_name = ([], Ok r)
    /\ match r with
       | Some h =>
           exists before after,
             root_handlers = before ++ h :: after
             /\ handler_agrees levelToName cls lvl fmt h
             /\ Forall (fun h' => ~ handler_agrees levelToName cls lvl fmt h')
                  before
       | None =>
           Forall (fun h' => ~ handler_agrees levelToName cls lvl fmt h')
             root_handlers
       end.
Proof.
  intros Hconf Hcls Hlvl Hname Hsec Hfmt Hall.
  unfold find_existing_handler_from_config.
  induction root_handlers as [|h rest IH]; simpl.
  - by exists None.
  - apply Forall_cons in Hall as [Hh Hall]. rewrite Hconf.
    destruct (handler_turn_agrees levelToName logger_cp h_conf cls lvl
                fmt_name fmt_section fmt h Hcls Hlvl Hname Hsec Hfmt Hh)
      as [[Hag ->]|[Hag ->]].
    + exists (Some h). split; [done|]. by exists [], rest.
    + destruct (IH Hall) as (r & -> & Hr). exists r. split; [done|].
      destruct r as [h'|].
      * destruct Hr as (before & after & -> & ? & ?).
        exists (h :: before), after. split; [done|]. split; [done|].
        by constructor.
      * by constructor.
Qed.

Lemma find_existing_handler_missing_section_witness :
  find_existing_handler_from_config default_levelToName example_handlers
    example_logger_cp "stderr"
  = (replicate (length example_handlers) (missing_section_warning "stderr"),
     Ok None).
Proof.
  apply (find_existing_handler_missing_section default_levelToName
           example_handlers example_logger_cp "stderr").
  reflexivity.
Defined.

Lemma find_existing_handler_missing_class_witness :
  find_existing_handler_from_config default_levelToName example_handlers
    example_logger_cp "bare"
  = ([], Raise KeyError).
Proof.
  apply (find_existing_handler_missing_class default_levelToName _ _
           example_logger_cp "bare" "handler_bare"); reflexivity.
Defined.

Lemma find_existing_handler_first_witness :
  exists r,
    find_existing_handler_from_config default_levelToName example_handlers
      example_logger_cp "stdout" = ([], Ok r)
    /\ match r with
       | Some h =>
           exists before after,
             example_handlers = before ++ h :: after
             /\ handler_agrees default_levelToName "StreamHandler" " info "
                  " %(message)s " h
             /\ Forall (fun h' => ~ handler_agrees default_levelToName
                                     "StreamHandler" " info " " %(message)s " h')
                  before
       | None =>
           Forall (fun h' => ~ handler_agrees default_levelToName
                                "StreamHandler" " info " " %(message)s " h')
             example_handlers
       end.
Proof.
  apply (find_existing_handler_first default_levelToName example_handlers
           example_logger_cp "stdout" "handler_stdout" "StreamHandler"
           " info " "plain" "formatter_plain" " %(message)s ");
    try reflexivity.
  repeat constructor; by eexists.
Defined.
